(** * ollama-desktop-app: the two image scripts

    A shallow embedding of [backend/scripts/generate_image.py] and
    [backend/scripts/install_image_model.py].

    Both scripts are a linear sequence of calls into the diffusers / torch
    libraries wrapped in one [try] with two [except] clauses.  The embedding
    keeps that shape: the external calls are oracles collected in an
    environment record, the script's own effects (the two output streams, the
    output directory, the heartbeat event) live in an explicit [world], and the
    [try] suite is a computation in a state-and-exception monad. *)

From Stdlib Require Import ZArith QArith Ascii String DecimalString.
From Stdlib Require DecimalPos DecimalZ.
From stdpp Require Import base option list strings gmap.


(** ** Python strings

    Strings are Rocq strings (byte sequences, UTF-8 for non-ASCII text).
    [str.lower] is embedded by its action on the ASCII letters.  For the
    substring tests of the scripts this loses nothing: every needle is
    made of the letters b, d, e, l, o, r, s, t, u, x, and no code point outside
    ASCII lower-cases to one of those. *)

Module Py.

Definition is_ascii_upper (c : ascii) : bool :=
  ((65 <=? N_of_ascii c) && (N_of_ascii c <=? 90))%N.

Definition lower_char (c : ascii) : ascii :=
  if is_ascii_upper c then ascii_of_N (N_of_ascii c + 32) else c.

(** [s.lower()] *)
Fixpoint lower (s : string) : string :=
  match s with
  | EmptyString => EmptyString
  | String c t => String (lower_char c) (lower t)
  end.

(** [needle in hay] for two [str] values *)
Fixpoint str_in (needle hay : string) : bool :=
  String.prefix needle hay ||
  match hay with
  | EmptyString => false
  | String _ t => str_in needle t
  end.

(** [a == b] for two [str] values *)
Definition str_eq (a b : string) : bool := String.eqb a b.

(** The line terminator written by [print]. *)
Definition nl : string := String "010"%char EmptyString.

(** [str(n)] for an [int] *)
Definition str_of_int (n : Z) : string := NilZero.string_of_int (Z.to_int n).

(** [int(x)] for a finite [float], truncating towards zero.  A finite float
    is a rational, which is all the truncation looks at. *)
Definition int_of_float (x : Q) : Z := Z.quot (Qnum x) (Z.pos (Qden x)).

(** [s.endswith(c)] for a one-character [c] *)
Fixpoint endswith_char (s : string) (c : ascii) : bool :=
  match s with
  | EmptyString => false
  | String a EmptyString => Ascii.eqb a c
  | String _ t => endswith_char t c
  end.

(** [os.path.join(a, b)] of [posixpath], two arguments: an absolute [b]
    replaces [a]; otherwise the separator is added unless [a] is empty or
    already ends with it. *)
Definition path_join (a b : string) : string :=
  if String.prefix "/" b then b
  else if str_eq a "" || endswith_char a "/"
       then a +:+ b
       else a +:+ "/" +:+ b.

(** [os.path.isabs] of [posixpath] *)
Definition isabs (p : string) : bool := String.prefix "/" p.

(** Number of line terminators of a text. *)
Fixpoint count_nl (s : string) : nat :=
  match s with
  | EmptyString => 0
  | String c t => (if Ascii.eqb c "010" then 1 else 0) + count_nl t
  end.

End Py.

(** ** What the claims call things *)

(** [hay] has [needle] as a contiguous part. *)
Definition substring_of (needle hay : string) : Prop :=
  exists pre post, hay = pre +:+ needle +:+ post.

(** [id] contains the lower-case word [word] up to the case of its letters:
    some contiguous part of [id] lower-cases to [word]. *)
Definition contains_ci (word id : string) : Prop :=
  exists pre w post, id = pre +:+ w +:+ post /\ Py.lower w = word.

Definition single_line (out : string) : Prop :=
  Py.count_nl out = 1 /\ exists body, out = body +:+ Py.nl.

(** ** Pieces shared by the two scripts *)

Inductive device := Cpu | Cuda.

Definition device_name (d : device) : string :=
  match d with Cpu => "cpu" | Cuda => "cuda" end.

Inductive dtype := Float16 | Float32.

(** Lines 34-44 of generate_image.py: the sampling preset, as the pair
    [(num_steps, guidance)].  The floats 1.0 and 7.5 are the rationals 1 and
    15/2. *)
Definition sampling_params (model_name : string) : Z * Q :=
  let is_turbo := Py.str_in "turbo" (Py.lower model_name) in
  let is_sdxl := Py.str_in "xl" (Py.lower model_name)
                 || Py.str_in "sdxl" (Py.lower model_name) in
  if is_turbo then (4%Z, 1 # 1)
  else if is_sdxl then (30%Z, 15 # 2)
  else (25%Z, 15 # 2).

(** [args.use_cpu.lower() == 'true'] (generate_image.py line 79,
    install_image_model.py line 28) *)
Definition parse_use_cpu (flag : string) : bool :=
  Py.str_eq (Py.lower flag) "true".

(** [torch.float16 if device == "cuda" else torch.float32] *)
Definition select_dtype (d : device) : dtype :=
  match d with Cuda => Float16 | Cpu => Float32 end.

(** ** Exceptions, outcomes and the world

    The [except] clauses tell two classes apart: [ImportError] (with its
    subclasses) and every other subclass of [Exception].  Exceptions outside
    [Exception] (a keyboard interrupt) are not caught by either script and
    are not part of the model. *)

Inductive exn :=
| ImportError (msg : string)
| OtherException (msg : string).

Inductive result (A : Type) :=
| Ok (a : A)
| Raise (e : exn).
Arguments Ok {A} a.
Arguments Raise {A} e.

(** How a script ends: the function returns, or [sys.exit(status)]. *)
Inductive outcome (A : Type) :=
| Returned (a : A)
| Exited (status : Z).
Arguments Returned {A} a.
Arguments Exited {A} status.

(** An image as the library hands it over; its content is opaque. *)
Definition image := string.

(** What standard error receives: a printed line, or the trace written by
    [traceback.print_exc]. *)
Inductive diag :=
| Line (text : string)
| Traceback (e : exn).

Inductive node :=
| Dir
| File (content : image).

(** Calls into the libraries and the operating system, with their
    arguments, in the order they are made. *)
Inductive call :=
| CallCudaIsAvailable
| CallFromPretrained (model_name : string) (torch_dtype : dtype) (token : option string)
| CallTo (d : device)
| CallEnableAttentionSlicing
| CallPipe (prompt : string) (num_inference_steps : Z) (guidance_scale : Q)
| CallMakedirs (path : string)
| CallSave (path : string).

(** [stdout] is the text written so far; [fs] maps a path to what is there;
    [done] is the installer's [threading.Event] ([None] before it is
    created, then whether it is set); [heartbeat] tells whether the thread
    was started. *)
Record world := World {
  stdout : string;
  stderr : list diag;
  fs : gmap string node;
  calls : list call;
  done : option bool;
  heartbeat : bool
}.

Definition initial_world (fs0 : gmap string node) : world :=
  World "" [] fs0 [] None false.

Definition M (A : Type) : Type := world -> result A * world.

#[global] Instance M_ret : MRet M := fun A a w => (Ok a, w).

#[global] Instance M_bind : MBind M := fun A B f c w =>
  match c w with
  | (Ok a, w') => f a w'
  | (Raise e, w') => (Raise e, w')
  end.

Definition raise {A} (e : exn) : M A := fun w => (Raise e, w).

(** [try: body finally: fin], for a [fin] that cannot raise *)
Definition try_finally {A} (body : M A) (fin : world -> world) : M A :=
  fun w => let '(r, w') := body w in (r, fin w').

(** [print(text, flush=True)] *)
Definition print_out (text : string) : M unit := fun w =>
  (Ok (), World (stdout w +:+ text +:+ Py.nl) (stderr w) (fs w) (calls w)
                (done w) (heartbeat w)).

Definition add_diag (d : diag) (w : world) : world :=
  World (stdout w) (stderr w ++ [d]) (fs w) (calls w) (done w) (heartbeat w).

(** [print(text, file=sys.stderr, flush=True)] *)
Definition print_err (text : string) : M unit := fun w =>
  (Ok (), add_diag (Line text) w).

Definition log_call (c : call) (w : world) : world :=
  World (stdout w) (stderr w) (fs w) (calls w ++ [c]) (done w) (heartbeat w).

Definition set_fs (f : gmap string node) (w : world) : world :=
  World (stdout w) (stderr w) f (calls w) (done w) (heartbeat w).

(** A call into a library: it is recorded, and returns or raises as the
    environment says. *)
Definition ext {A} (c : call) (r : result A) : M A := fun w => (r, log_call c w).

(** What a computation comes to, and the world after some output [ds] on
    standard error and some calls [cs]. *)
Definition result_of {A} (c : M A) : result A := (c (initial_world ∅)).1.

Definition after (w : world) (ds : list diag) (cs : list call) : world :=
  World (stdout w) (stderr w ++ ds) (fs w) (calls w ++ cs) (done w) (heartbeat w).

Definition is_line (d : diag) : Prop :=
  match d with Line _ => True | Traceback _ => False end.

(** A computation that touches nothing but standard error, where it prints
    lines, and the libraries, which it calls within [P]; what it comes to
    does not depend on the world it starts in. *)
Definition framed {A} (P : call -> Prop) (c : M A) : Prop :=
  forall w, exists ds cs,
    c w = (result_of c, after w ds cs) /\ Forall is_line ds /\ Forall P cs.

(** ** The environment: everything the scripts do not decide themselves *)

Record env := Env {
  (** the two [import] statements; [None] when both succeed *)
  import_libs : option exn;
  (** [torch.cuda.is_available()] *)
  cuda_is_available : result bool;
  (** [AutoPipelineForText2Image.from_pretrained(model, torch_dtype, token)] *)
  from_pretrained : string -> dtype -> option string -> result unit;
  (** [pipe.to(device)] *)
  pipe_to : device -> result unit;
  (** [pipe.enable_attention_slicing()] *)
  enable_attention_slicing : result unit;
  (** [pipe(prompt, num_inference_steps, guidance_scale).images] *)
  run_pipe : string -> Z -> Q -> result (list image);
  (** [time.time()] *)
  time_now : Q;
  (** a failure of the operating system in [os.makedirs] or in [image.save],
      other than the ones the file-system model decides *)
  makedirs_fault : option exn;
  save_fault : option exn;
  (** [os.environ.get] *)
  environ : string -> option string;
  (** how many statements the heartbeat thread of the installer gets to
      execute before the event is set *)
  heartbeat_steps : nat
}.

Definition do_imports (E : env) : M unit :=
  match import_libs E with
  | Some e => raise e
  | None => mret ()
  end.

(** ["cpu" if use_cpu else ("cuda" if torch.cuda.is_available() else "cpu")]:
    the query is made only when [use_cpu] is false. *)
Definition select_device (E : env) (use_cpu : bool) : M device :=
  if use_cpu then mret Cpu
  else
    available ← ext CallCudaIsAvailable (cuda_is_available E);
    mret (if available : bool then Cuda else Cpu).

(** The device the expression settles on, or the exception of the query. *)
Definition device_choice (E : env) (use_cpu : bool) : result device :=
  result_of (select_device E use_cpu).

(** The calls lines 14-51 of the generator and lines 49-61 of the installer
    may make, with the arguments they must carry. *)
Definition library_call_ok (E : env) (prompt model_name : string)
    (token : option string) (use_cpu : bool) (c : call) : Prop :=
  match c with
  | CallCudaIsAvailable => use_cpu = false
  | CallFromPretrained m dt tok =>
      m = model_name /\ tok = token /\
      exists d, device_choice E use_cpu = Ok d /\ dt = select_dtype d
  | CallTo d => device_choice E use_cpu = Ok d
  | CallEnableAttentionSlicing => device_choice E use_cpu = Ok Cpu
  | CallPipe p n g => p = prompt /\ (n, g) = sampling_params model_name
  | CallMakedirs _ | CallSave _ => False
  end.

Definition is_os_call (c : call) : Prop :=
  match c with CallMakedirs _ | CallSave _ => True | _ => False end.

(** What the [except] clauses write on standard error. *)
Definition error_report (e : exn) : list diag :=
  match e with
  | ImportError m => [Line ("ERROR: Missing required library: " +:+ m)]
  | OtherException m => [Line ("ERROR: " +:+ m); Traceback (OtherException m)]
  end.

(** ** Paths and directories

    A directory is entered in the file system under the resolved form of its
    path: separators that repeat or trail and the component [.] do not
    count, and [..] steps back to the directory before it.  There are no
    links, and relative paths are relative to one working directory, which
    exists. *)

Module Fs.

(** The pieces of a text between the occurrences of [c]. *)
Fixpoint split_on (c : ascii) (s : string) : list string :=
  match s with
  | EmptyString => [EmptyString]
  | String a t =>
      if Ascii.eqb a c then EmptyString :: split_on c t
      else match split_on c t with
           | [] => [String a EmptyString]
           | h :: r => String a h :: r
           end
  end.

Fixpoint join (comps : list string) : string :=
  match comps with
  | [] => ""
  | c :: rest =>
      match rest with
      | [] => c
      | _ :: _ => c +:+ "/" +:+ join rest
      end
  end.

(** The path of the directory reached through [stack], innermost first. *)
Definition render (abs : bool) (stack : list string) : string :=
  (if abs then "/" else "") +:+ join (rev stack).

(** One component of a path: where it leads, and the directory it enters,
    if it enters one. *)
Definition enter (abs : bool) (c : string) (stack : list string)
    : list string * option string :=
  if Py.str_eq c "" || Py.str_eq c "." then (stack, None)
  else if Py.str_eq c ".." then
    (match stack with
     | [] => if abs then [] else [".."]
     | top :: below => if Py.str_eq top ".." then ".." :: stack else below
     end, None)
  else (c :: stack, Some (render abs (c :: stack))).

(** The directories a path goes through, outermost first, and where it
    ends. *)
Fixpoint walk (abs : bool) (comps stack : list string)
    : list string * list string :=
  match comps with
  | [] => ([], stack)
  | c :: rest =>
      let '(stack', entered) := enter abs c stack in
      let '(dirs, final) := walk abs rest stack' in
      (match entered with Some d => d :: dirs | None => dirs end, final)
  end.

(** The directories [os.makedirs(path)] needs, parents first. *)
Definition dir_chain (path : string) : list string :=
  (walk (Py.isabs path) (split_on "/" path) []).1.


(** The directories of [dirs] made one after the other: one that exists is
    kept, one that is missing is created, and a regular file in the place of
    one stops the whole with what was created so far. *)
Fixpoint mkdir_chain (path : string) (dirs : list string)
    (f : gmap string node) : result unit * gmap string node :=
  match dirs with
  | [] => (Ok (), f)
  | d :: rest =>
      match f !! d with
      | Some (File _) =>
          (Raise (OtherException
                    match rest with
                    | [] => "[Errno 17] File exists: '" +:+ path +:+ "'"
                    | next :: _ => "[Errno 20] Not a directory: '" +:+ next +:+ "'"
                    end), f)
      | Some Dir => mkdir_chain path rest f
      | None => mkdir_chain path rest (<[d := Dir]> f)
      end
  end.

End Fs.

(** The length of the components of a path, one more for each. *)
Definition weight (comps : list string) : nat :=
  foldr (fun c n => S (String.length c) + n) 0 comps.

(** [os.makedirs(path, exist_ok=True)]: the directory and every missing
    parent are created; directories that exist are accepted, a regular file
    in the place of the directory or of a parent is not. *)
Definition os_makedirs (E : env) (path : string) : M unit := fun w =>
  let w := log_call (CallMakedirs path) w in
  match makedirs_fault E with
  | Some e => (Raise e, w)
  | None =>
      if Py.str_eq path ""
      then (Raise (OtherException "[Errno 2] No such file or directory: ''"), w)
      else let '(r, f) := Fs.mkdir_chain path (Fs.dir_chain path) (fs w) in
           (r, set_fs f w)
  end.

(** [image.save(path)]: the file at [path] is created or replaced. *)
Definition image_save (E : env) (img : image) (path : string) : M unit := fun w =>
  let w := log_call (CallSave path) w in
  match save_fault E with
  | Some e => (Raise e, w)
  | None =>
      match fs w !! path with
      | Some Dir =>
          (Raise (OtherException ("[Errno 21] Is a directory: '" +:+ path +:+ "'")), w)
      | _ => (Ok (), set_fs (<[path := File img]> (fs w)) w)
      end
  end.

(** [images[0]] *)
Definition first_image (images : list image) : M image :=
  match images with
  | [] => raise (OtherException "list index out of range")
  | img :: _ => mret img
  end.

(** The two [except] clauses both scripts end with, followed by
    [sys.exit(1)]. *)
Definition handle_errors {A} (body : M A) : world -> outcome A * world := fun w =>
  match body w with
  | (Ok a, w') => (Returned a, w')
  | (Raise (ImportError m), w') =>
      (Exited 1, add_diag (Line ("ERROR: Missing required library: " +:+ m)) w')
  | (Raise (OtherException m), w') =>
      (Exited 1, add_diag (Traceback (OtherException m))
                   (add_diag (Line ("ERROR: " +:+ m)) w'))
  end.

(** What either script has done when its [try] suite raised [e]: status 1,
    nothing on standard output, and on standard error some lines followed by
    the report of [e]. *)
Definition failed_with {A} (r : outcome A * world) (e : exn) : Prop :=
  r.1 = Exited 1 /\ stdout r.2 = "" /\
  exists ds, Forall is_line ds /\ stderr r.2 = ds ++ error_report e.

(** ** generate_image.py *)

Module Generator.

(** The parsed command line: [--prompt] and [--output-dir] are required,
    [--model] and [--use-cpu] have defaults. *)
Record args := Args {
  arg_prompt : string;
  arg_model : option string;
  arg_output_dir : string;
  arg_use_cpu : option string
}.

Definition model_of (a : args) : string :=
  default "runwayml/stable-diffusion-v1-5" (arg_model a).

Definition use_cpu_of (a : args) : string :=
  default "false" (arg_use_cpu a).

(** [f"generated-{int(time.time())}.png"] *)
Definition file_name (E : env) : string :=
  "generated-" +:+ Py.str_of_int (Py.int_of_float (time_now E)) +:+ ".png".

(** Lines 14-51: from the imports to the first image of the pipeline. *)
Definition produce_image (E : env)
    (prompt model_name : string) (use_cpu : bool) : M image :=
  do_imports E;;
  print_err ("Loading model: " +:+ model_name);;
  device ← select_device E use_cpu;
  print_err ("Using device: " +:+ device_name device);;
  let dtype := select_dtype device in
  ext (CallFromPretrained model_name dtype None)
      (from_pretrained E model_name dtype None);;
  ext (CallTo device) (pipe_to E device);;
  match device with
  | Cpu => ext CallEnableAttentionSlicing (enable_attention_slicing E)
  | Cuda => mret ()
  end;;
  let '(num_steps, guidance) := sampling_params model_name in
  print_err "Generating image...";;
  images ← ext (CallPipe prompt num_steps guidance)
               (run_pipe E prompt num_steps guidance);
  first_image images.

(** Lines 53-58: the directory, the file and the report. *)
Definition store_and_report (E : env) (output_dir : string) (img : image)
    : M string :=
  os_makedirs E output_dir;;
  let output_path := Py.path_join output_dir (file_name E) in
  image_save E img output_path;;
  print_out ("IMAGE_PATH:" +:+ output_path);;
  mret output_path.

(** Lines 14-58: the suite of the [try]. *)
Definition generate_image_body (E : env)
    (prompt model_name output_dir : string) (use_cpu : bool) : M string :=
  img ← produce_image E prompt model_name use_cpu;
  store_and_report E output_dir img.

(** Lines 12-68. *)
Definition generate_image (E : env)
    (prompt model_name output_dir : string) (use_cpu : bool)
    : world -> outcome string * world :=
  handle_errors (generate_image_body E prompt model_name output_dir use_cpu).

(** Lines 70-80. *)
Definition main (E : env) (a : args) : world -> outcome string * world :=
  let use_cpu := parse_use_cpu (use_cpu_of a) in
  generate_image E (arg_prompt a) (model_of a) (arg_output_dir a) use_cpu.

(** The process, started on a file system [fs0]. *)
Definition run (E : env) (a : args) (fs0 : gmap string node)
    : outcome string * world :=
  main E a (initial_world fs0).

(** What lines 14-51 come to: the image, or the exception raised on the
    way to it. *)
Definition generation (E : env) (prompt model_name : string) (use_cpu : bool)
    : result image :=
  result_of (produce_image E prompt model_name use_cpu).

(** What the [try] suite of a run raises, if anything. *)
Definition raised (E : env) (a : args) (fs0 : gmap string node) : option exn :=
  match generate_image_body E (arg_prompt a) (model_of a) (arg_output_dir a)
          (parse_use_cpu (use_cpu_of a)) (initial_world fs0) with
  | (Raise e, _) => Some e
  | (Ok _, _) => None
  end.

End Generator.

(** ** install_image_model.py *)

Module Installer.

Record args := Args {
  arg_model : string;
  arg_use_cpu : option string
}.

Definition use_cpu_of (a : args) : string :=
  default "false" (arg_use_cpu a).

(** [done = threading.Event()] *)
Definition new_event : M unit := fun w =>
  (Ok (), World (stdout w) (stderr w) (fs w) (calls w) (Some false) (heartbeat w)).

(** [t.start()] *)
Definition start_heartbeat : M unit := fun w =>
  (Ok (), World (stdout w) (stderr w) (fs w) (calls w) (done w) true).

(** [done.set()] *)
Definition set_done (w : world) : world :=
  World (stdout w) (stderr w) (fs w) (calls w) (Some true) (heartbeat w).

(** [a or b] on two optional strings: the first one if it is there and not
    empty, else the second. *)
Definition py_or (a b : option string) : option string :=
  match a with
  | Some s => if Py.str_eq s "" then b else Some s
  | None => b
  end.

(** Line 56 and the [token if token else None] of line 60. *)
Definition token_of (E : env) : option string :=
  match py_or (environ E "HF_TOKEN") (environ E "HUGGING_FACE_HUB_TOKEN") with
  | Some s => if Py.str_eq s "" then None else Some s
  | None => None
  end.

(** *** The heartbeat thread, lines 36-44

    One step is one statement of [progress_ping]; the step reads the event
    as it is at that moment.  [done.wait(timeout=15)] returns, when the
    event is set or when the 15 seconds are over. *)

Inductive ping_pc :=
| AtWhile      (* line 38 *)
| AtWait       (* line 39 *)
| AtCheck      (* lines 40-41 *)
| AtPrint      (* lines 42-44 *)
| Finished.

Record ping_state := Ping { pc : ping_pc; count : Z }.

Definition ping_line (count : Z) : string :=
  "  Still downloading... (" +:+ Py.str_of_int (count * 15)
    +:+ "s elapsed). Normal for 10–30 min.".

Definition ping_step (is_set : bool) (s : ping_state) : ping_state * list diag :=
  match pc s with
  | AtWhile => (Ping (if is_set then Finished else AtWait) (count s), [])
  | AtWait => (Ping AtCheck (count s), [])
  | AtCheck => (Ping (if is_set then Finished else AtPrint) (count s), [])
  | AtPrint => (Ping AtWhile (count s + 1), [Line (ping_line (count s + 1))])
  | Finished => (s, [])
  end.

(** The thread run against the successive values of the event, one per
    step, collecting what it prints on standard error. *)
Fixpoint ping_run (flags : list bool) (s : ping_state) : ping_state * list diag :=
  match flags with
  | [] => (s, [])
  | b :: rest =>
      let '(s1, out1) := ping_step b s in
      let '(s2, out2) := ping_run rest s1 in
      (s2, out1 ++ out2)
  end.

Definition ping_start : ping_state := Ping AtWhile 0.

(** What the thread prints in all when it executes [heartbeat_steps]
    statements before the event is set and then finds it set. *)
Definition heartbeat_output (E : env) : list diag :=
  (ping_run (replicate (heartbeat_steps E) false ++ [true; true; true])
            ping_start).2.

(** The thread runs while the main thread is in [c]: by the time [c] is
    over, what the thread prints is on standard error.  (A line of the
    thread that comes out only between the last lines of the main thread is
    not modelled.) *)
Definition alongside_heartbeat {A} (E : env) (c : M A) : M A := fun w =>
  let '(r, w') := c w in
  (r, World (stdout w') (stderr w' ++ heartbeat_output E) (fs w') (calls w')
            (done w') (heartbeat w')).

(** Lines 49-61: the suite of the inner [try]. *)
Definition download (E : env) (model_name : string) (use_cpu : bool) : M unit :=
  device ← select_device E use_cpu;
  let dtype := select_dtype device in
  let token := token_of E in
  ext (CallFromPretrained model_name dtype token)
      (from_pretrained E model_name dtype token).

(** Lines 24-66: the suite of the outer [try]. *)
Definition main_body (E : env) (a : args) : M unit :=
  do_imports E;;
  let model_name := arg_model a in
  let use_cpu := parse_use_cpu (use_cpu_of a) in
  print_err ("Downloading model: " +:+ model_name);;
  print_err "First install is 4–6GB+ and often takes 10–30 min.";;
  print_err "If it runs longer than 30 min with no change, cancel and retry (network may have stalled).";;
  new_event;;
  start_heartbeat;;
  alongside_heartbeat E (try_finally (download E model_name use_cpu) set_done);;
  print_err ("Model installed successfully: " +:+ model_name);;
  print_out "INSTALL_OK".

(** Lines 17-75. *)
Definition main (E : env) (a : args) : world -> outcome unit * world :=
  handle_errors (main_body E a).

Definition run (E : env) (a : args) (fs0 : gmap string node)
    : outcome unit * world :=
  main E a (initial_world fs0).

Definition raised (E : env) (a : args) (fs0 : gmap string node) : option exn :=
  match main_body E a (initial_world fs0) with
  | (Raise e, _) => Some e
  | (Ok _, _) => None
  end.

End Installer.

(** ** Sample environments and command lines *)

Module Sample.

(** Everything installed, a GPU present, one image produced, the clock at
    1700000000.5 seconds. *)
Definition gpu_env : env :=
  Env None (Ok true) (fun _ _ _ => Ok ()) (fun _ => Ok ()) (Ok ())
      (fun _ _ _ => Ok ["png-bytes"]) (17000000005 # 10) None None
      (fun _ => None) 0.

(** The same machine without a GPU. *)
Definition cpu_env : env :=
  Env None (Ok false) (fun _ _ _ => Ok ()) (fun _ => Ok ()) (Ok ())
      (fun _ _ _ => Ok ["png-bytes"]) (17000000005 # 10) None None
      (fun _ => None) 0.


(** diffusers is not installed. *)
Definition no_diffusers_env : env :=
  Env (Some (ImportError "No module named 'diffusers'"))
      (Ok true) (fun _ _ _ => Ok ()) (fun _ => Ok ()) (Ok ())
      (fun _ _ _ => Ok ["png-bytes"]) (17000000005 # 10) None None
      (fun _ => None) 0.

(** The model cannot be fetched. *)
Definition offline_env : env :=
  Env None (Ok true)
      (fun _ _ _ => Raise (OtherException "Connection error"))
      (fun _ => Ok ()) (Ok ())
      (fun _ _ _ => Ok ["png-bytes"]) (17000000005 # 10) None None
      (fun _ => None) 0.

(** [--prompt "a cat" --output-dir out] *)
Definition relative_args : Generator.args :=
  Generator.Args "a cat" None "out" None.

(** [--prompt "a cat" --output-dir /tmp/images --use-cpu true] *)
Definition absolute_args : Generator.args :=
  Generator.Args "a cat" None "/tmp/images" (Some "true").

(** [--model stabilityai/sdxl-turbo] *)
Definition install_args : Installer.args :=
  Installer.Args "stabilityai/sdxl-turbo" None.

End Sample.

(** ** The traces the scripts are expected to leave *)

Module Trace.

(** Standard error of a generator run that gets to the pipeline call. *)
Definition generator_lines (model_name : string) (d : device) : list diag :=
  [Line ("Loading model: " +:+ model_name);
   Line ("Using device: " +:+ device_name d);
   Line "Generating image..."].

(** The library calls of lines 14-51 when none of them raises. *)
Definition generator_calls (prompt model_name : string) (use_cpu : bool)
    (d : device) : list call :=
  (if use_cpu then [] else [CallCudaIsAvailable]) ++
  [CallFromPretrained model_name (select_dtype d) None; CallTo d] ++
  match d with Cpu => [CallEnableAttentionSlicing] | Cuda => [] end ++
  [CallPipe prompt (sampling_params model_name).1 (sampling_params model_name).2].

(** What the installer prints on standard error before the download. *)
Definition installer_intro (model_name : string) : list diag :=
  [Line ("Downloading model: " +:+ model_name);
   Line "First install is 4–6GB+ and often takes 10–30 min.";
   Line "If it runs longer than 30 min with no change, cancel and retry (network may have stalled)."].

(** The library calls of the installer up to and including the load. *)
Definition installer_calls (E : env) (model_name : string) (use_cpu : bool)
    (d : device) : list call :=
  (if use_cpu then [] else [CallCudaIsAvailable]) ++
  [CallFromPretrained model_name (select_dtype d) (Installer.token_of E)].

(** The heartbeat lines numbered [from + 1], ..., [from + n]. *)
Fixpoint ping_lines (from : Z) (n : nat) : list diag :=
  match n with
  | O => []
  | S k => Line (Installer.ping_line (from + 1)) :: ping_lines (from + 1) k
  end.

(** Number of occurrences of a character in a text. *)
Fixpoint count_char (c : ascii) (s : string) : nat :=
  match s with
  | EmptyString => 0
  | String a t => (if Ascii.eqb a c then 1 else 0) + count_char c t
  end.

End Trace.

(** ** Further sample environments *)

Module Cases.

(** The pipeline returns without an image. *)
Definition no_image_env : env :=
  Env None (Ok true) (fun _ _ _ => Ok ()) (fun _ => Ok ()) (Ok ())
      (fun _ _ _ => Ok []) (17000000005 # 10) None None (fun _ => None) 0.

(** A later run within the same second, producing another image. *)
Definition same_second_env : env :=
  Env None (Ok true) (fun _ _ _ => Ok ()) (fun _ => Ok ()) (Ok ())
      (fun _ _ _ => Ok ["other-bytes"]) (17000000009 # 10) None None
      (fun _ => None) 0.

(** A run one second later. *)
Definition next_second_env : env :=
  Env None (Ok true) (fun _ _ _ => Ok ()) (fun _ => Ok ()) (Ok ())
      (fun _ _ _ => Ok ["other-bytes"]) (17000000015 # 10) None None
      (fun _ => None) 0.

(** [HF_TOKEN] set but empty, [HUGGING_FACE_HUB_TOKEN] set. *)
Definition fallback_token_env : env :=
  Env None (Ok false) (fun _ _ _ => Ok ()) (fun _ => Ok ()) (Ok ())
      (fun _ _ _ => Ok ["png-bytes"]) (17000000005 # 10) None None
      (fun k => if String.eqb k "HF_TOKEN" then Some ""
                else if String.eqb k "HUGGING_FACE_HUB_TOKEN"
                     then Some "hf_abc" else None) 0.

(** The download fails after the heartbeat thread has executed seven
    statements: one line printed, the second one decided. *)
Definition slow_offline_env : env :=
  Env None (Ok true)
      (fun _ _ _ => Raise (OtherException "Connection error"))
      (fun _ => Ok ()) (Ok ())
      (fun _ _ _ => Ok ["png-bytes"]) (17000000005 # 10) None None
      (fun _ => None) 7.

(** A regular file where a parent of the output directory should be. *)
Definition file_in_the_way : gmap string node := {[ "f" := File "x" ]}.

End Cases.

(** * Proofs

    ** Strings *)

Lemma append_nil (t : string) : "" +:+ t = t.
Proof. reflexivity. Qed.

Lemma append_cons (c : ascii) (s t : string) :
  String c s +:+ t = String c (s +:+ t).
Proof. reflexivity. Qed.

Lemma append_empty_r (s : string) : s +:+ "" = s.
Proof. induction s as [|c s IH]; [done | by rewrite append_cons, IH]. Qed.

Lemma append_assoc (a b c : string) : (a +:+ b) +:+ c = a +:+ (b +:+ c).
Proof. induction a as [|x a IH]; [done | by rewrite !append_cons, IH]. Qed.

Lemma prefix_spec (n h : string) :
  String.prefix n h = true <-> exists post, h = n +:+ post.
Proof.
  revert h. induction n as [|c n IH]; intros h.
  - split; [intros _; by exists h | intros _; by destruct h].
  - destruct h as [|d h]; simpl.
    + split; [done | intros [post H]; discriminate].
    + destruct (ascii_dec c d) as [->|Hne].
      * rewrite IH. split; intros [post H]; exists post.
        -- by rewrite append_cons, H.
        -- rewrite append_cons in H. by injection H.
      * split; [done | intros [post H]].
        rewrite append_cons in H. injection H. congruence.
Qed.

Lemma str_in_spec (n h : string) :
  Py.str_in n h = true <-> substring_of n h.
Proof.
  induction h as [|c h IH].
  - simpl. rewrite orb_false_r. split.
    + intros H. destruct n; [|done]. by exists "", "".
    + intros [pre [post H]]. destruct pre; [|done].
      rewrite append_nil in H. destruct n; [done | discriminate].
  - cbn [Py.str_in]. rewrite orb_true_iff, IH, prefix_spec. split.
    + intros [[post H] | [pre [post H]]].
      * by exists "", post.
      * exists (String c pre), post. by rewrite append_cons, H.
    + intros [pre [post H]]. destruct pre as [|d pre].
      * left. by exists post.
      * right. rewrite append_cons in H. injection H as _ H. by exists pre, post.
Qed.

Lemma lower_app (a b : string) : Py.lower (a +:+ b) = Py.lower a +:+ Py.lower b.
Proof.
  induction a as [|c a IH]; [done |].
  rewrite append_cons. simpl. by rewrite IH, append_cons.
Qed.

Lemma lower_app_inv (s a b : string) :
  Py.lower s = a +:+ b ->
  exists a' b', s = a' +:+ b' /\ Py.lower a' = a /\ Py.lower b' = b.
Proof.
  revert s. induction a as [|c a IH]; intros s H.
  - by exists "", s.
  - rewrite append_cons in H.
    destruct s as [|d s]; [discriminate |]. simpl in H. injection H as Hc Hs.
    destruct (IH _ Hs) as (a' & b' & -> & Ha & Hb).
    exists (String d a'), b'. simpl. by rewrite Hc, Ha.
Qed.

Lemma contains_ci_lower (word id : string) :
  substring_of word (Py.lower id) <-> contains_ci word id.
Proof.
  split.
  - intros (pre & post & H).
    apply lower_app_inv in H as (pre' & rest & -> & _ & Hrest).
    apply lower_app_inv in Hrest as (w & post' & -> & Hw & _).
    by exists pre', w, post'.
  - intros (pre & w & post & -> & Hw).
    exists (Py.lower pre), (Py.lower post). by rewrite !lower_app, Hw.
Qed.

Lemma str_in_lower (word id : string) :
  Py.str_in word (Py.lower id) = true <-> contains_ci word id.
Proof. by rewrite str_in_spec, contains_ci_lower. Qed.

Lemma str_in_lower_false (word id : string) :
  Py.str_in word (Py.lower id) = false <-> ~ contains_ci word id.
Proof. rewrite <- str_in_lower. by destruct (Py.str_in _ _). Qed.

Lemma str_eq_spec (a b : string) : Py.str_eq a b = true <-> a = b.
Proof. apply String.eqb_eq. Qed.

(** ** The embedding on the examples of the specification *)

Example preset_sd_turbo : sampling_params "sd-turbo" = (4%Z, 1 # 1).
Proof. reflexivity. Qed.

Example preset_sdxl_base :
  sampling_params "stabilityai/sdxl-base" = (30%Z, 15 # 2).
Proof. reflexivity. Qed.

Example preset_sd15 :
  sampling_params "runwayml/stable-diffusion-v1-5" = (25%Z, 15 # 2).
Proof. reflexivity. Qed.

Example preset_turbo_wins : sampling_params "SDXL-Turbo" = (4%Z, 1 # 1).
Proof. reflexivity. Qed.

Example join_plain :
  Py.path_join "out" "generated-1700000000.png" = "out/generated-1700000000.png".
Proof. reflexivity. Qed.

Example join_trailing_separator :
  Py.path_join "/tmp/x/" "a.png" = "/tmp/x/a.png".
Proof. reflexivity. Qed.

Example clock_truncated :
  Py.str_of_int (Py.int_of_float (17000000005 # 10)) = "1700000000".
Proof. reflexivity. Qed.

Example chain_with_parents :
  Fs.dir_chain "/tmp/images" = ["/tmp"; "/tmp/images"].
Proof. reflexivity. Qed.

Example chain_ignores_spelling : Fs.dir_chain "./a//b/" = ["a"; "a/b"].
Proof. reflexivity. Qed.

(** The parents of the output directory are created with it. *)
Example parents_are_created :
  fs (Generator.run Sample.gpu_env
        (Generator.Args "a cat" None "a/b" None) ∅).2 !! "a" = Some Dir.
Proof. vm_compute. reflexivity. Qed.

(** A regular file where a parent should be: the run fails after the
    generation and leaves the file system as it was. *)
Example file_in_the_way_fails :
  (Generator.run Sample.gpu_env (Generator.Args "a cat" None "f/sub" None)
     Cases.file_in_the_way).1 = Exited 1 /\
  In (Line "ERROR: [Errno 20] Not a directory: 'f/sub'")
     (stderr (Generator.run Sample.gpu_env
                (Generator.Args "a cat" None "f/sub" None)
                Cases.file_in_the_way).2) /\
  fs (Generator.run Sample.gpu_env (Generator.Args "a cat" None "f/sub" None)
        Cases.file_in_the_way).2 !! "f/sub" = None.
Proof. repeat split; vm_compute; tauto. Qed.

(** The heartbeat over one timeout and a half: one line, then the event is
    seen and the loop is left. *)
Example ping_first_tick :
  Installer.ping_run [false; false; false; false; false; true; true; true]
    Installer.ping_start
  = (Installer.Ping Installer.Finished 1,
     [Line "  Still downloading... (15s elapsed). Normal for 10–30 min."]).
Proof. vm_compute. reflexivity. Qed.

(** ** The frame rules *)

Lemma after_nil (w : world) : after w [] [] = w.
Proof. destruct w. unfold after. simpl. by rewrite !app_nil_r. Qed.

Lemma after_after (w : world) ds1 cs1 ds2 cs2 :
  after (after w ds1 cs1) ds2 cs2 = after w (ds1 ++ ds2) (cs1 ++ cs2).
Proof. unfold after. simpl. by rewrite !app_assoc. Qed.

Lemma print_err_after (text : string) (w : world) :
  print_err text w = (Ok (), after w [Line text] []).
Proof. unfold print_err, add_diag, after. by rewrite app_nil_r. Qed.

Lemma ext_after {A} (c : call) (r : result A) (w : world) :
  ext c r w = (r, after w [] [c]).
Proof. unfold ext, log_call, after. by rewrite app_nil_r. Qed.

Lemma framed_ret {A} (P : call -> Prop) (a : A) : framed P (mret a).
Proof. intros w. exists [], []. by rewrite after_nil. Qed.

Lemma framed_raise {A} (P : call -> Prop) (e : exn) : framed P (@raise A e).
Proof. intros w. exists [], []. by rewrite after_nil. Qed.

Lemma framed_print_err (P : call -> Prop) (text : string) :
  framed P (print_err text).
Proof.
  intros w. exists [Line text], []. split; [|by repeat constructor].
  unfold print_err, add_diag, after. simpl. by rewrite app_nil_r.
Qed.

Lemma framed_ext {A} (P : call -> Prop) (c : call) (r : result A) :
  P c -> framed P (ext c r).
Proof.
  intros H w. exists [], [c]. split; [|by repeat constructor].
  unfold ext, log_call, after. simpl. by rewrite app_nil_r.
Qed.

Lemma framed_bind {A B} (P : call -> Prop) (c : M A) (f : A -> M B) :
  framed P c ->
  (forall a, result_of c = Ok a -> framed P (f a)) ->
  framed P (c ≫= f).
Proof.
  intros Hc Hf w.
  destruct (Hc w) as (ds & cs & Hw & Hds & Hcs).
  destruct (Hc (initial_world ∅)) as (ds0 & cs0 & H0 & _ & _).
  unfold result_of at 1. unfold mbind, M_bind. rewrite Hw, H0.
  destruct (result_of c) as [a|e] eqn:Hr.
  - destruct (Hf a eq_refl (after w ds cs)) as (ds' & cs' & -> & Hds' & Hcs').
    destruct (Hf a eq_refl (after (initial_world ∅) ds0 cs0))
      as (ds1 & cs1 & -> & _ & _).
    exists (ds ++ ds'), (cs ++ cs'). rewrite after_after.
    split; [done | split; by apply Forall_app].
  - by exists ds, cs.
Qed.

Lemma select_device_framed (E : env) (prompt model_name : string)
    (token : option string) (use_cpu : bool) :
  framed (library_call_ok E prompt model_name token use_cpu)
         (select_device E use_cpu).
Proof.
  unfold select_device. destruct use_cpu; [apply framed_ret |].
  apply framed_bind; [by apply framed_ext | intros; apply framed_ret].
Qed.

Lemma produce_image_framed (E : env) (prompt model_name : string)
    (use_cpu : bool) :
  framed (library_call_ok E prompt model_name None use_cpu)
         (Generator.produce_image E prompt model_name use_cpu).
Proof.
  unfold Generator.produce_image.
  apply framed_bind.
  { unfold do_imports. destruct (import_libs E); [apply framed_raise | apply framed_ret]. }
  intros _ _. apply framed_bind; [apply framed_print_err | intros _ _].
  apply framed_bind; [apply select_device_framed | intros d Hd].
  apply framed_bind; [apply framed_print_err | intros _ _].
  apply framed_bind.
  { apply framed_ext. simpl. eauto. }
  intros _ _. apply framed_bind; [by apply framed_ext | intros _ _].
  apply framed_bind.
  { destruct d; [by apply framed_ext | apply framed_ret]. }
  intros _ _. destruct (sampling_params model_name) as [n g] eqn:Hsp.
  apply framed_bind; [apply framed_print_err | intros _ _].
  apply framed_bind; [by apply framed_ext | intros images _].
  destruct images; [apply framed_raise | apply framed_ret].
Qed.

Lemma download_framed (E : env) (model_name : string) (use_cpu : bool) :
  framed (library_call_ok E "" model_name (Installer.token_of E) use_cpu)
         (Installer.download E model_name use_cpu).
Proof.
  unfold Installer.download.
  apply framed_bind; [apply select_device_framed | intros d Hd].
  apply framed_ext. simpl. eauto.
Qed.

Lemma select_device_run (E : env) (use_cpu : bool) (w : world) :
  select_device E use_cpu w =
    (device_choice E use_cpu,
     if use_cpu then w else log_call CallCudaIsAvailable w).
Proof.
  unfold device_choice, result_of, select_device. destruct use_cpu; [done |].
  unfold mbind, M_bind, ext. simpl. by destruct (cuda_is_available E) as [[|]|].
Qed.

Lemma device_choice_eq (E : env) (use_cpu : bool) :
  device_choice E use_cpu =
    if use_cpu then Ok Cpu
    else match cuda_is_available E with
         | Ok true => Ok Cuda
         | Ok false => Ok Cpu
         | Raise e => Raise e
         end.
Proof.
  unfold device_choice, result_of, select_device. destruct use_cpu; [done |].
  unfold mbind, M_bind, ext. simpl. by destruct (cuda_is_available E) as [[|]|].
Qed.

Lemma select_device_after (E : env) (use_cpu : bool) (w : world) :
  select_device E use_cpu w =
    (device_choice E use_cpu,
     after w [] (if use_cpu then [] else [CallCudaIsAvailable])).
Proof.
  rewrite select_device_run. destruct use_cpu; [by rewrite after_nil |].
  unfold log_call, after. by rewrite app_nil_r.
Qed.

(** The model load is reached, with the precision of the device, as soon as
    the imports and the device query succeed. *)
Lemma download_loads (E : env) (model_name : string) (use_cpu : bool)
    (d : device) (w : world) :
  device_choice E use_cpu = Ok d ->
  In (CallFromPretrained model_name (select_dtype d) (Installer.token_of E))
     (calls (Installer.download E model_name use_cpu w).2).
Proof.
  intros Hd. unfold Installer.download, mbind, M_bind.
  rewrite select_device_run, Hd. unfold ext, log_call. simpl.
  apply in_app_iff. right. by left.
Qed.

Lemma produce_image_loads (E : env) (prompt model_name : string)
    (use_cpu : bool) (d : device) (w : world) :
  import_libs E = None ->
  device_choice E use_cpu = Ok d ->
  In (CallFromPretrained model_name (select_dtype d) None)
     (calls (Generator.produce_image E prompt model_name use_cpu w).2) /\
  (from_pretrained E model_name (select_dtype d) None = Ok () ->
   In (CallTo d)
      (calls (Generator.produce_image E prompt model_name use_cpu w).2)).
Proof.
  intros Himp Hd. unfold Generator.produce_image, do_imports. rewrite Himp.
  unfold mbind, M_bind, mret, M_ret, print_err.
  rewrite select_device_run, Hd.
  destruct (sampling_params model_name) as [n g].
  unfold ext, first_image, raise, log_call, add_diag. simpl.
  destruct (from_pretrained E model_name (select_dtype d) None) as [[]|e1];
    simpl; [|rewrite !in_app_iff; simpl; split; [tauto | done]].
  destruct (pipe_to E d) as [[]|e2]; simpl;
    [|rewrite !in_app_iff; simpl; tauto].
  destruct d; simpl.
  - destruct (enable_attention_slicing E) as [[]|e3]; simpl;
      [|rewrite !in_app_iff; simpl; tauto].
    destruct (run_pipe E prompt n g) as [[|img imgs]|e4]; simpl;
      rewrite !in_app_iff; simpl; tauto.
  - destruct (run_pipe E prompt n g) as [[|img imgs]|e4]; simpl;
      rewrite !in_app_iff; simpl; tauto.
Qed.

(** ** The [except] clauses *)

Lemma handle_errors_ok {A} (body : M A) (w w' : world) (a : A) :
  body w = (Ok a, w') -> handle_errors body w = (Returned a, w').
Proof. unfold handle_errors. by intros ->. Qed.

Lemma handle_errors_raise {A} (body : M A) (w w' : world) (e : exn) :
  body w = (Raise e, w') ->
  handle_errors body w = (Exited 1, after w' (error_report e) []).
Proof.
  unfold handle_errors. intros ->. destruct w'.
  destruct e; unfold after, add_diag; simpl; by rewrite <- ?app_assoc, app_nil_r.
Qed.

(** ** generate_image.py: the two halves of the [try] suite *)

Lemma length_append (a b : string) :
  String.length (a +:+ b) = String.length a + String.length b.
Proof.
  induction a as [|c a IH]; [done |]. rewrite append_cons. simpl. by rewrite IH.
Qed.

Lemma prefix_nil (s : string) : String.prefix "" s = true.
Proof. by destruct s. Qed.

Lemma file_name_relative (E : env) :
  String.prefix "/" (Generator.file_name E) = false.
Proof. reflexivity. Qed.

Lemma path_join_file_name (E : env) (dir : string) :
  Py.path_join dir (Generator.file_name E) =
    dir +:+ (if Py.str_eq dir "" || Py.endswith_char dir "/" then "" else "/")
        +:+ Generator.file_name E.
Proof.
  unfold Py.path_join. rewrite file_name_relative.
  by destruct (Py.str_eq dir "" || Py.endswith_char dir "/").
Qed.

Lemma path_join_longer (E : env) (dir : string) :
  Py.path_join dir (Generator.file_name E) <> dir.
Proof.
  rewrite path_join_file_name. intros H.
  apply (f_equal String.length) in H. rewrite !length_append in H.
  unfold Generator.file_name in H. rewrite length_append in H. simpl in H. lia.
Qed.

Lemma path_join_isabs (E : env) (dir : string) :
  dir <> "" ->
  Py.isabs (Py.path_join dir (Generator.file_name E)) = Py.isabs dir.
Proof.
  intros Hne. rewrite path_join_file_name. destruct dir as [|c dir]; [done |].
  unfold Py.isabs. rewrite append_cons.
  change (String.prefix "/" (String c ?t))
    with (if ascii_dec "/" c then String.prefix "" t else false).
  destruct (ascii_dec "/" c); [|done]. by rewrite !prefix_nil.
Qed.

(** ** Directories *)

Lemma mkdir_chain_keeps (path : string) (dirs : list string)
    (f : gmap string node) (k : string) (v : node) :
  f !! k = Some v -> (Fs.mkdir_chain path dirs f).2 !! k = Some v.
Proof.
  revert f. induction dirs as [|d dirs IH]; intros f Hk; [done |].
  simpl. destruct (f !! d) as [[|c]|] eqn:Hd; simpl; auto.
  apply IH. rewrite lookup_insert_ne; [done | congruence].
Qed.


Lemma mkdir_chain_dirs (path : string) (dirs : list string)
    (f f' : gmap string node) :
  Fs.mkdir_chain path dirs f = (Ok (), f') ->
  forall d, In d dirs -> f' !! d = Some Dir.
Proof.
  revert f. induction dirs as [|d0 dirs IH]; intros f Hrun d Hin; [done |].
  simpl in Hrun. destruct Hin as [<- | Hin].
  - destruct (f !! d0) as [[|c]|] eqn:Hd; [| done |].
    + rewrite <- (mkdir_chain_keeps path dirs f d0 Dir Hd). by rewrite Hrun.
    + rewrite <- (mkdir_chain_keeps path dirs (<[d0:=Dir]> f) d0 Dir).
      * by rewrite Hrun.
      * apply lookup_insert_eq.
  - destruct (f !! d0) as [[|c]|] eqn:Hd; [| done |]; by eapply IH.
Qed.


Lemma mkdir_chain_ok_free (path : string) (dirs : list string)
    (f f' : gmap string node) :
  Fs.mkdir_chain path dirs f = (Ok (), f') ->
  forall d, In d dirs -> forall c, f !! d <> Some (File c).
Proof.
  revert f. induction dirs as [|d0 dirs IH]; intros f Hrun d Hin c; [done |].
  simpl in Hrun. destruct (f !! d0) as [[|c0]|] eqn:Hd; [| done |].
  - destruct Hin as [<- | Hin]; [congruence | by eapply IH].
  - destruct Hin as [<- | Hin]; [congruence |].
    intros Hfile. apply (IH _ Hrun d Hin c).
    rewrite lookup_insert_ne; [done | congruence].
Qed.

Lemma mkdir_chain_noop (path : string) (dirs : list string)
    (f : gmap string node) :
  (forall d, In d dirs -> f !! d = Some Dir) ->
  Fs.mkdir_chain path dirs f = (Ok (), f).
Proof.
  induction dirs as [|d dirs IH]; intros Hdirs; [done |].
  simpl. rewrite (Hdirs d (or_introl eq_refl)). apply IH.
  intros d' Hd'. apply Hdirs. by right.
Qed.

(** The directories on the way to a path are not longer than the path
    itself, give or take the separators. *)
Lemma weight_app (l1 l2 : list string) :
  weight (l1 ++ l2) = weight l1 + weight l2.
Proof. induction l1 as [|c l1 IH]; simpl; [done | rewrite IH; lia]. Qed.

Lemma weight_rev (l : list string) : weight (rev l) = weight l.
Proof.
  induction l as [|c l IH]; [done |]. simpl.
  rewrite weight_app, IH. simpl. lia.
Qed.

Lemma weight_split (c : ascii) (s : string) :
  weight (Fs.split_on c s) = S (String.length s).
Proof.
  induction s as [|a s IH]; [done |]. simpl.
  destruct (Ascii.eqb a c); simpl; [by rewrite IH |].
  destruct (Fs.split_on c s) as [|h r]; simpl in *; lia.
Qed.

Lemma length_join (l : list string) : String.length (Fs.join l) <= weight l.
Proof.
  induction l as [|c l IH]; [done |]. simpl.
  destruct l as [|c' l'].
  - simpl. lia.
  - rewrite !length_append. simpl in *. lia.
Qed.

Lemma length_render (abs : bool) (stack : list string) :
  String.length (Fs.render abs stack) <= (if abs then 1 else 0) + weight stack.
Proof.
  unfold Fs.render. rewrite length_append.
  pose proof (length_join (rev stack)) as H. rewrite weight_rev in H.
  destruct abs; simpl; lia.
Qed.

Lemma enter_weight (abs : bool) (c : string) (stack : list string) :
  weight (Fs.enter abs c stack).1 <= weight stack + S (String.length c).
Proof.
  unfold Fs.enter.
  destruct (Py.str_eq c "" || Py.str_eq c "."); simpl; [lia |].
  destruct (Py.str_eq c "..") eqn:Hc; simpl; [|lia].
  apply str_eq_spec in Hc as ->.
  destruct stack as [|top below]; simpl.
  - destruct abs; simpl; lia.
  - destruct (Py.str_eq top ".."); simpl; lia.
Qed.

Lemma walk_length (abs : bool) (comps stack : list string) (d : string) :
  In d (Fs.walk abs comps stack).1 ->
  String.length d <= (if abs then 1 else 0) + weight stack + weight comps.
Proof.
  revert stack. induction comps as [|c comps IH]; intros stack; [done |].
  simpl. pose proof (enter_weight abs c stack) as Hw.
  destruct (Fs.enter abs c stack) as [stack' entered] eqn:Henter.
  specialize (IH stack').
  destruct (Fs.walk abs comps stack') as [dirs final]. simpl in *.
  assert (In d dirs -> String.length d <=
            (if abs then 1 else 0) + weight stack
            + S (String.length c + weight comps)) as Hrest.
  { intros Hin. apply IH in Hin. lia. }
  destruct entered as [d0|]; [|exact Hrest].
  intros [<- | Hin]; [|by apply Hrest].
  unfold Fs.enter in Henter.
  destruct (Py.str_eq c "" || Py.str_eq c "."); [done |].
  destruct (Py.str_eq c ".."); [done |].
  injection Henter as <- <-.
  pose proof (length_render abs (c :: stack)) as Hr. simpl in Hr. lia.
Qed.

Lemma dir_chain_length (path d : string) :
  In d (Fs.dir_chain path) -> String.length d <= String.length path + 2.
Proof.
  unfold Fs.dir_chain. intros H. apply walk_length in H.
  rewrite weight_split in H. simpl in H.
  destruct (Py.isabs path); lia.
Qed.

(** The image path is none of the directories on the way to it. *)
Lemma image_path_not_a_dir (E : env) (out : string) :
  ~ In (Py.path_join out (Generator.file_name E)) (Fs.dir_chain out).
Proof.
  intros H. apply dir_chain_length in H.
  rewrite path_join_file_name, !length_append in H.
  unfold Generator.file_name in H. rewrite length_append in H. simpl in H.
  lia.
Qed.

(** Lines 53-58 in full: what they return, and the world they leave. *)
Lemma store_and_report_inv (E : env) (out : string) (img : image)
    (w w' : world) (r : result string) :
  Generator.store_and_report E out img w = (r, w') ->
  let p := Py.path_join out (Generator.file_name E) in
  stderr w' = stderr w /\ done w' = done w /\ heartbeat w' = heartbeat w /\
  (exists cs, calls w' = calls w ++ cs /\ Forall is_os_call cs) /\
  match r with
  | Ok q =>
      q = p /\ out <> "" /\
      stdout w' = stdout w +:+ "IMAGE_PATH:" +:+ p +:+ Py.nl /\
      exists f1,
        Fs.mkdir_chain out (Fs.dir_chain out) (fs w) = (Ok (), f1) /\
        f1 !! p <> Some Dir /\
        fs w' = <[p := File img]> f1
  | Raise e => stdout w' = stdout w
  end.
Proof.
  unfold Generator.store_and_report, os_makedirs, image_save, print_out.
  unfold mbind, M_bind, mret, M_ret. simpl.
  destruct (makedirs_fault E) as [e|].
  { intros [= <- <-]. simpl. repeat split; eauto.
    exists [CallMakedirs out]. by repeat constructor. }
  destruct (Py.str_eq out "") eqn:Hout.
  { intros [= <- <-]. simpl. repeat split; eauto.
    exists [CallMakedirs out]. by repeat constructor. }
  assert (out <> "") as Hne.
  { intros ->. discriminate. }
  destruct (Fs.mkdir_chain out (Fs.dir_chain out) (fs w)) as [[[]|e] f1]
    eqn:Hmk; simpl.
  2:{ intros [= <- <-]. simpl. repeat split; eauto.
      exists [CallMakedirs out]. by repeat constructor. }
  destruct (save_fault E) as [e|]; simpl.
  { intros [= <- <-]. simpl. repeat split; eauto.
    eexists [_; _]. rewrite <- app_assoc. by repeat constructor. }
  destruct (f1 !! Py.path_join out (Generator.file_name E)) as [[|c]|] eqn:Hp;
    simpl; intros [= <- <-]; simpl.
  - repeat split; eauto.
    eexists [_; _]. rewrite <- app_assoc. by repeat constructor.
  - split; [done | split; [done | split; [done | split]]].
    { eexists [_; _]. rewrite <- app_assoc. by repeat constructor. }
    split; [done | split; [done | split; [by rewrite append_assoc |]]].
    exists f1. by rewrite Hp.
  - split; [done | split; [done | split; [done | split]]].
    { eexists [_; _]. rewrite <- app_assoc. by repeat constructor. }
    split; [done | split; [done | split; [by rewrite append_assoc |]]].
    exists f1. by rewrite Hp.
Qed.

(** The whole run, split at line 52. *)
Lemma generator_run_split (E : env) (a : Generator.args)
    (fs0 : gmap string node) :
  let prompt := Generator.arg_prompt a in
  let model_name := Generator.model_of a in
  let use_cpu := parse_use_cpu (Generator.use_cpu_of a) in
  exists ds cs,
    Forall is_line ds /\
    Forall (library_call_ok E prompt model_name None use_cpu) cs /\
    cs = calls (Generator.produce_image E prompt model_name use_cpu
                  (initial_world fs0)).2 /\
    Generator.generate_image_body E prompt model_name
        (Generator.arg_output_dir a) use_cpu (initial_world fs0) =
      match Generator.generation E prompt model_name use_cpu with
      | Raise e => (Raise e, after (initial_world fs0) ds cs)
      | Ok img =>
          Generator.store_and_report E (Generator.arg_output_dir a) img
            (after (initial_world fs0) ds cs)
      end.
Proof.
  intros prompt model_name use_cpu.
  destruct (produce_image_framed E prompt model_name use_cpu (initial_world fs0))
    as (ds & cs & Hrun & Hds & Hcs).
  exists ds, cs. split; [done | split; [done |]].
  split; [by rewrite Hrun |].
  unfold Generator.generate_image_body, mbind, M_bind. rewrite Hrun.
  unfold Generator.generation.
  by destruct (result_of (Generator.produce_image E prompt model_name use_cpu)).
Qed.



Lemma store_and_report_ok_trace (E : env) (out : string) (img : image)
    (w w' : world) (q : string) :
  Generator.store_and_report E out img w = (Ok q, w') ->
  calls w' = calls w ++ [CallMakedirs out;
                         CallSave (Py.path_join out (Generator.file_name E))].
Proof.
  unfold Generator.store_and_report, os_makedirs, image_save, print_out.
  unfold mbind, M_bind, mret, M_ret. simpl.
  destruct (makedirs_fault E); [done |].
  destruct (Py.str_eq out ""); [done |].
  destruct (Fs.mkdir_chain out (Fs.dir_chain out) (fs w)) as [[[]|e] f1];
    simpl; [|done].
  destruct (save_fault E); simpl; [done |].
  destruct (f1 !! _) as [[|c]|]; simpl; try done.
  all: intros [= _ <-]; simpl; by rewrite <- app_assoc.
Qed.

(** ** Line counting *)

Lemma count_nl_append (a b : string) :
  Py.count_nl (a +:+ b) = Py.count_nl a + Py.count_nl b.
Proof.
  induction a as [|c a IH]; [done |]. rewrite append_cons. simpl.
  rewrite IH. lia.
Qed.

Lemma count_nl_uint (d : Decimal.uint) :
  Py.count_nl (NilEmpty.string_of_uint d) = 0.
Proof. induction d; simpl; done. Qed.

Lemma count_nl_str_of_int (n : Z) : Py.count_nl (Py.str_of_int n) = 0.
Proof.
  unfold Py.str_of_int, NilZero.string_of_int, NilZero.string_of_uint.
  destruct (Z.to_int n) as [d|d]; destruct d; simpl; by rewrite ?count_nl_uint.
Qed.

Lemma count_nl_file_name (E : env) : Py.count_nl (Generator.file_name E) = 0.
Proof.
  unfold Generator.file_name.
  by rewrite !count_nl_append, count_nl_str_of_int.
Qed.

Lemma count_nl_path_join (E : env) (dir : string) :
  Py.count_nl (Py.path_join dir (Generator.file_name E)) = Py.count_nl dir.
Proof.
  rewrite path_join_file_name, !count_nl_append, count_nl_file_name.
  destruct (Py.str_eq dir "" || Py.endswith_char dir "/"); simpl; lia.
Qed.

Lemma single_line_intro (body : string) :
  Py.count_nl body = 0 -> single_line (body +:+ Py.nl).
Proof.
  intros H. split; [|by exists body].
  rewrite count_nl_append, H. done.
Qed.

Lemma image_path_single_line (E : env) (out : string) :
  Py.count_nl out = 0 ->
  single_line ("IMAGE_PATH:" +:+ Py.path_join out (Generator.file_name E)
               +:+ Py.nl).
Proof.
  intros Hnl.
  change (single_line
            (("IMAGE_PATH:" +:+ Py.path_join out (Generator.file_name E))
             +:+ Py.nl)).
  apply single_line_intro.
  rewrite count_nl_append, count_nl_path_join, Hnl. done.
Qed.

(** ** generate_image.py: the run *)

Lemma generator_run_cases (E : env) (a : Generator.args)
    (fs0 : gmap string node) :
  let prompt := Generator.arg_prompt a in
  let model_name := Generator.model_of a in
  let use_cpu := parse_use_cpu (Generator.use_cpu_of a) in
  let body := Generator.generate_image_body E prompt model_name
                (Generator.arg_output_dir a) use_cpu in
  exists ds cs,
    Forall is_line ds /\
    (Forall (library_call_ok E prompt model_name None use_cpu) cs /\
     cs = calls (Generator.produce_image E prompt model_name use_cpu
                   (initial_world fs0)).2) /\
    match Generator.generation E prompt model_name use_cpu with
    | Raise e =>
        body (initial_world fs0) = (Raise e, after (initial_world fs0) ds cs) /\
        Generator.run E a fs0 =
          (Exited 1, after (initial_world fs0) (ds ++ error_report e) cs)
    | Ok img =>
        exists r w',
          Generator.store_and_report E (Generator.arg_output_dir a) img
            (after (initial_world fs0) ds cs) = (r, w') /\
          body (initial_world fs0) = (r, w') /\
          Generator.run E a fs0 =
            match r with
            | Ok p => (Returned p, w')
            | Raise e => (Exited 1, after w' (error_report e) [])
            end
    end.
Proof.
  intros prompt model_name use_cpu body.
  destruct (generator_run_split E a fs0)
    as (ds & cs & Hds & Hcs & Hcalls & Hbody).
  fold prompt model_name use_cpu body in Hbody.
  exists ds, cs. split; [done | split; [done |]].
  unfold Generator.run, Generator.main, Generator.generate_image.
  fold prompt model_name use_cpu body.
  destruct (Generator.generation E prompt model_name use_cpu) as [img|e].
  - destruct (Generator.store_and_report E (Generator.arg_output_dir a) img
                (after (initial_world fs0) ds cs)) as [r w'] eqn:Hstore.
    exists r, w'. split; [done | split; [done |]].
    destruct r as [p|e].
    + by apply handle_errors_ok.
    + by apply handle_errors_raise.
  - split; [done |].
    rewrite (handle_errors_raise _ _ _ _ Hbody), after_after.
    by rewrite app_nil_r.
Qed.




(** C2, as amended.  A run that returns has written to standard output
    exactly the text [IMAGE_PATH:<p>] and a line break, where [<p>] is the
    output directory joined with the file name, the path the image is stored
    under; [<p>] is absolute exactly when the output directory given on the
    command line is, and the text is one line when that directory has no line
    break in its name.  A run that fails exits with status 1 and has written
    nothing to standard output. *)
Theorem image_path_line (E : env) (a : Generator.args)
    (fs0 : gmap string node) :
  let r := Generator.run E a fs0 in
  let out := Generator.arg_output_dir a in
  match r.1 with
  | Returned p =>
      p = Py.path_join out (Generator.file_name E) /\
      stdout r.2 = "IMAGE_PATH:" +:+ p +:+ Py.nl /\
      (exists img, fs r.2 !! p = Some (File img)) /\
      Py.isabs p = Py.isabs out /\
      (Py.count_nl out = 0 -> single_line (stdout r.2))
  | Exited n => n = 1%Z /\ stdout r.2 = ""
  end.
Proof.
  intros r out.
  destruct (generator_run_cases E a fs0) as (ds & cs & Hds & Hcs & H).
  fold r in H.
  destruct (Generator.generation _ _ _ _) as [img|e].
  2:{ destruct H as [_ ->]. done. }
  destruct H as (res & w' & Hstore & _ & ->).
  apply store_and_report_inv in Hstore.
  destruct Hstore as (_ & _ & _ & _ & Hres).
  destruct res as [p|e]; simpl.
  - destruct Hres as (-> & Hne & Hout & f1 & _ & _ & Hfs).
    fold out in Hout, Hfs, Hne |- *.
    split; [done |]. simpl in Hout. split; [done |].
    split; [exists img; rewrite Hfs; apply lookup_insert_eq |].
    split; [by apply path_join_isabs |].
    intros Hnl. rewrite Hout. by apply image_path_single_line.
  - split; [done |]. by rewrite Hres.
Qed.

Lemma image_path_line_witness :
  stdout (Generator.run Sample.cpu_env Sample.absolute_args ∅).2
    = "IMAGE_PATH:/tmp/images/generated-1700000000.png" +:+ Py.nl /\
  single_line (stdout (Generator.run Sample.cpu_env Sample.absolute_args ∅).2).
Proof.
  pose proof (image_path_line Sample.cpu_env Sample.absolute_args ∅) as H.
  assert ((Generator.run Sample.cpu_env Sample.absolute_args ∅).1
            = Returned "/tmp/images/generated-1700000000.png") as Hr
    by (vm_compute; reflexivity).
  cbv zeta in H. rewrite Hr in H. destruct H as (_ & H1 & _ & _ & H2).
  split; [exact H1 | apply H2; reflexivity].
Defined.

(** C2 as stated fails for an output directory given as a relative path:
    the run succeeds, the image is stored, and the path on the [IMAGE_PATH:]
    line is the relative one. *)
Lemma image_path_relative :
  (Generator.run Sample.gpu_env Sample.relative_args ∅).1
    = Returned "out/generated-1700000000.png" /\
  stdout (Generator.run Sample.gpu_env Sample.relative_args ∅).2
    = "IMAGE_PATH:out/generated-1700000000.png" +:+ Py.nl /\
  fs (Generator.run Sample.gpu_env Sample.relative_args ∅).2
    !! "out/generated-1700000000.png" = Some (File "png-bytes") /\
  Py.isabs "out/generated-1700000000.png" = false.
Proof. repeat split; vm_compute; reflexivity. Qed.



(** ** install_image_model.py: the run *)

Lemma ping_step_lines (b : bool) (s : Installer.ping_state) :
  Forall is_line (Installer.ping_step b s).2.
Proof.
  unfold Installer.ping_step. destruct (Installer.pc s); by repeat constructor.
Qed.

Lemma ping_run_lines (flags : list bool) (s : Installer.ping_state) :
  Forall is_line (Installer.ping_run flags s).2.
Proof.
  revert s. induction flags as [|b flags IH]; intros s; [by constructor |].
  cbn [Installer.ping_run].
  pose proof (ping_step_lines b s) as H1.
  destruct (Installer.ping_step b s) as [s1 out1].
  pose proof (IH s1) as H2.
  destruct (Installer.ping_run flags s1) as [s2 out2].
  apply Forall_app. by split.
Qed.

Lemma heartbeat_output_lines (E : env) :
  Forall is_line (Installer.heartbeat_output E).
Proof. apply ping_run_lines. Qed.

Lemma installer_body_cases (E : env) (a : Installer.args)
    (fs0 : gmap string node) :
  let model_name := Installer.arg_model a in
  let use_cpu := parse_use_cpu (Installer.use_cpu_of a) in
  match import_libs E with
  | Some e =>
      Installer.main_body E a (initial_world fs0) = (Raise e, initial_world fs0)
  | None =>
      exists ds cs,
        Forall is_line ds /\
        (Forall (library_call_ok E "" model_name (Installer.token_of E) use_cpu) cs /\
         forall d, device_choice E use_cpu = Ok d ->
           In (CallFromPretrained model_name (select_dtype d)
                 (Installer.token_of E)) cs) /\
        Installer.main_body E a (initial_world fs0) =
          match result_of (Installer.download E model_name use_cpu) with
          | Raise e => (Raise e, World "" ds fs0 cs (Some true) true)
          | Ok _ =>
              (Ok (), World ("INSTALL_OK" +:+ Py.nl) ds fs0 cs (Some true) true)
          end
  end.
Proof.
  intros model_name use_cpu. unfold Installer.main_body, do_imports.
  fold model_name use_cpu.
  destruct (import_libs E) as [e|]; [done |].
  unfold mbind, M_bind, mret, M_ret, print_err, Installer.new_event,
    Installer.start_heartbeat, Installer.alongside_heartbeat, try_finally,
    add_diag. simpl.
  match goal with
  | |- context [Installer.download E model_name use_cpu ?w] =>
      pose proof (fun d => download_loads E model_name use_cpu d w) as Hload;
      destruct (download_framed E model_name use_cpu w)
        as (ds & cs & Hrun & Hds & Hcs)
  end.
  rewrite Hrun in Hload |- *. simpl in Hload.
  destruct (result_of (Installer.download E model_name use_cpu)) as [[]|e].
  - eexists _, cs. split; [|split; [split; [exact Hcs | exact Hload] | reflexivity]].
    repeat first [apply Forall_app; split | apply Forall_cons; split
                 | apply Forall_nil | exact Hds | exact I
                 | apply heartbeat_output_lines].
  - eexists _, cs. split; [|split; [split; [exact Hcs | exact Hload] | reflexivity]].
    repeat first [apply Forall_app; split | apply Forall_cons; split
                 | apply Forall_nil | exact Hds | exact I
                 | apply heartbeat_output_lines].
Qed.

Lemma installer_run_cases (E : env) (a : Installer.args)
    (fs0 : gmap string node) :
  let model_name := Installer.arg_model a in
  let use_cpu := parse_use_cpu (Installer.use_cpu_of a) in
  match import_libs E with
  | Some e =>
      Installer.raised E a fs0 = Some e /\
      Installer.run E a fs0 =
        (Exited 1, after (initial_world fs0) (error_report e) [])
  | None =>
      exists ds cs,
        Forall is_line ds /\
        (Forall (library_call_ok E "" model_name (Installer.token_of E) use_cpu) cs /\
         forall d, device_choice E use_cpu = Ok d ->
           In (CallFromPretrained model_name (select_dtype d)
                 (Installer.token_of E)) cs) /\
        match result_of (Installer.download E model_name use_cpu) with
        | Raise e =>
            Installer.raised E a fs0 = Some e /\
            Installer.run E a fs0 =
              (Exited 1,
               World "" (ds ++ error_report e) fs0 cs (Some true) true)
        | Ok _ =>
            Installer.raised E a fs0 = None /\
            Installer.run E a fs0 =
              (Returned (),
               World ("INSTALL_OK" +:+ Py.nl) ds fs0 cs (Some true) true)
        end
  end.
Proof.
  intros model_name use_cpu.
  pose proof (installer_body_cases E a fs0) as H.
  fold model_name use_cpu in H.
  unfold Installer.run, Installer.main, Installer.raised.
  destruct (import_libs E) as [e|].
  - rewrite H. split; [done |]. by apply handle_errors_raise.
  - destruct H as (ds & cs & Hds & Hcs & H). exists ds, cs.
    split; [done | split; [done |]]. rewrite H.
    destruct (result_of (Installer.download E model_name use_cpu)) as [[]|e].
    + split; [done |]. by apply handle_errors_ok.
    + split; [done |].
      rewrite (handle_errors_raise _ _ _ _ H).
      unfold after. simpl. by rewrite app_nil_r.
Qed.

Lemma generator_failed (E : env) (a : Generator.args)
    (fs0 : gmap string node) :
  match Generator.raised E a fs0 with
  | Some e => failed_with (Generator.run E a fs0) e
  | None => exists p, (Generator.run E a fs0).1 = Returned p
  end.
Proof.
  destruct (generator_run_cases E a fs0) as (ds & cs & Hds & Hcs & H).
  unfold Generator.raised.
  destruct (Generator.generation _ _ _ _) as [img|e].
  - destruct H as (res & w' & Hstore & -> & ->).
    apply store_and_report_inv in Hstore.
    destruct Hstore as (Herr & _ & _ & _ & Hres).
    destruct res as [p|e]; [by exists p |].
    rename Hres into Hout. repeat split; [done |].
    exists ds. split; [done |]. simpl. by rewrite Herr.
  - destruct H as [-> ->]. repeat split. by exists ds.
Qed.

Lemma installer_failed (E : env) (a : Installer.args)
    (fs0 : gmap string node) :
  match Installer.raised E a fs0 with
  | Some e => failed_with (Installer.run E a fs0) e
  | None => (Installer.run E a fs0).1 = Returned ()
  end.
Proof.
  pose proof (installer_run_cases E a fs0) as H.
  destruct (import_libs E) as [e|].
  - destruct H as [-> ->]. repeat split. by exists [].
  - destruct H as (ds & cs & Hds & Hcs & H).
    destruct (result_of _) as [[]|e]; destruct H as [-> ->]; [done |].
    repeat split. by exists ds.
Qed.

Lemma substring_of_suffix (pre s : string) : substring_of s (pre +:+ s).
Proof. exists pre, "". by rewrite append_empty_r. Qed.

(** C4.  In both scripts a run whose [try] suite raises ends with status 1
    and nothing on standard output, and standard error ends with the report
    of the exception, everything before it being plain lines; a run whose
    suite does not raise returns.  For an [ImportError] the report is the one
    line [ERROR: Missing required library: <message>], without a trace; for
    any other exception it is the line [ERROR: <message>] followed by the
    trace of that exception. *)
Theorem two_error_kinds (E : env) (fs0 : gmap string node) :
  (forall a : Generator.args,
     match Generator.raised E a fs0 with
     | Some e => failed_with (Generator.run E a fs0) e
     | None => exists p, (Generator.run E a fs0).1 = Returned p
     end) /\
  (forall a : Installer.args,
     match Installer.raised E a fs0 with
     | Some e => failed_with (Installer.run E a fs0) e
     | None => (Installer.run E a fs0).1 = Returned ()
     end) /\
  (forall m, exists l,
     error_report (ImportError m) = [Line l] /\
     String.prefix "ERROR: " l = true /\ substring_of m l) /\
  (forall m, exists l,
     error_report (OtherException m) = [Line l; Traceback (OtherException m)] /\
     l = "ERROR: " +:+ m).
Proof.
  split; [intros a; apply generator_failed |].
  split; [intros a; apply installer_failed |].
  split.
  - intros m. eexists. split; [reflexivity |].
    split; [reflexivity | apply substring_of_suffix].
  - intros m. eexists. split; reflexivity.
Qed.

Lemma two_error_kinds_witness :
  failed_with (Generator.run Sample.no_diffusers_env Sample.relative_args ∅)
    (ImportError "No module named 'diffusers'") /\
  failed_with (Installer.run Sample.offline_env Sample.install_args ∅)
    (OtherException "Connection error").
Proof.
  destruct (two_error_kinds Sample.no_diffusers_env ∅) as (Hg & _).
  destruct (two_error_kinds Sample.offline_env ∅) as (_ & Hi & _).
  split.
  - exact (Hg Sample.relative_args).
  - exact (Hi Sample.install_args).
Defined.

(** C7.  An installer run that returns has written to standard output the
    one line [INSTALL_OK] and nothing else; a run that fails exits with
    status 1, has written nothing to standard output, and its diagnostics,
    ending with the error report, are on standard error. *)
Theorem install_ok_line (E : env) (a : Installer.args)
    (fs0 : gmap string node) :
  match (Installer.run E a fs0).1 with
  | Returned _ =>
      stdout (Installer.run E a fs0).2 = "INSTALL_OK" +:+ Py.nl /\
      single_line (stdout (Installer.run E a fs0).2) /\
      Installer.raised E a fs0 = None
  | Exited n =>
      n = 1%Z /\
      stdout (Installer.run E a fs0).2 = "" /\
      exists e ds,
        Installer.raised E a fs0 = Some e /\
        stderr (Installer.run E a fs0).2 = ds ++ error_report e
  end.
Proof.
  pose proof (installer_run_cases E a fs0) as H.
  destruct (import_libs E) as [e|].
  - destruct H as [Hr ->]. simpl. split; [done | split; [done |]].
    by exists e, [].
  - destruct H as (ds & cs & Hds & Hcs & H).
    destruct (result_of _) as [[]|e]; destruct H as [Hr ->]; simpl.
    + split; [done | split; [|done]]. by apply single_line_intro.
    + split; [done | split; [done |]]. by exists e, ds.
Qed.

(** ** The heartbeat *)

Lemma ping_run_set (s : Installer.ping_state) :
  Installer.pc (Installer.ping_run [true; true; true] s).1 = Installer.Finished /\
  length (Installer.ping_run [true; true; true] s).2 <= 1.
Proof. destruct s as [[] n]; simpl; split; done || lia. Qed.

(** C5.  Once the installer has started the heartbeat thread, the event is
    set when the run ends, whether the download returned or raised (and the
    thread is started whenever the imports succeed).  With the event set, the
    thread leaves its loop within three of its steps, wherever it stands,
    printing at most one line it had already decided to print. *)
Theorem heartbeat_stopped (E : env) (a : Installer.args)
    (fs0 : gmap string node) :
  let r := Installer.run E a fs0 in
  let download := Installer.download E (Installer.arg_model a)
                    (parse_use_cpu (Installer.use_cpu_of a)) in
  (heartbeat r.2 = true -> done r.2 = Some true) /\
  (import_libs E = None -> heartbeat r.2 = true) /\
  (import_libs E = None -> forall e, result_of download = Raise e ->
     r.1 = Exited 1 /\ done r.2 = Some true) /\
  (import_libs E = None -> result_of download = Ok () ->
     r.1 = Returned () /\ done r.2 = Some true) /\
  (forall s,
     Installer.pc (Installer.ping_run [true; true; true] s).1
       = Installer.Finished /\
     length (Installer.ping_run [true; true; true] s).2 <= 1).
Proof.
  intros r download. subst r download.
  pose proof (installer_run_cases E a fs0) as H. cbv zeta in H.
  split; [|split; [|split; [|split]]].
  - destruct (import_libs E) as [e|].
    + destruct H as [_ ->]. simpl. done.
    + destruct H as (ds & cs & _ & _ & H).
      destruct (result_of _) as [[]|e]; destruct H as [_ ->]; done.
  - intros Himp. rewrite Himp in H. destruct H as (ds & cs & _ & _ & H).
    destruct (result_of _) as [[]|e]; destruct H as [_ ->]; done.
  - intros Himp e He. rewrite Himp in H.
    destruct H as (ds & cs & _ & _ & H). rewrite He in H.
    destruct H as [_ ->]. done.
  - intros Himp Hok. rewrite Himp in H.
    destruct H as (ds & cs & _ & _ & H). rewrite Hok in H.
    destruct H as [_ ->]. done.
  - apply ping_run_set.
Qed.

Lemma heartbeat_stopped_witness :
  (Installer.run Sample.offline_env Sample.install_args ∅).1 = Exited 1 /\
  done (Installer.run Sample.offline_env Sample.install_args ∅).2 = Some true.
Proof.
  destruct (heartbeat_stopped Sample.offline_env Sample.install_args ∅)
    as (_ & _ & H & _).
  apply (H eq_refl (OtherException "Connection error")). reflexivity.
Defined.

(** ** The calls of a run *)

Lemma generator_calls (E : env) (a : Generator.args) (fs0 : gmap string node) :
  let prompt := Generator.arg_prompt a in
  let model_name := Generator.model_of a in
  let use_cpu := parse_use_cpu (Generator.use_cpu_of a) in
  exists cs cs',
    calls (Generator.run E a fs0).2 = cs ++ cs' /\
    cs = calls (Generator.produce_image E prompt model_name use_cpu
                  (initial_world fs0)).2 /\
    Forall (library_call_ok E prompt model_name None use_cpu) cs /\
    Forall is_os_call cs'.
Proof.
  intros prompt model_name use_cpu.
  destruct (generator_run_cases E a fs0) as (ds & cs & Hds & [Hcs Heq] & H).
  fold prompt model_name use_cpu in H, Hcs, Heq.
  destruct (Generator.generation E prompt model_name use_cpu) as [img|e].
  - destruct H as (res & w' & Hstore & _ & ->).
    apply store_and_report_inv in Hstore.
    destruct Hstore as (_ & _ & _ & (cs' & Hcalls & Hos) & _).
    exists cs, cs'. simpl in Hcalls.
    split; [|done]. destruct res; simpl; by rewrite ?app_nil_r.
  - destruct H as [_ ->]. exists cs, []. simpl. by rewrite app_nil_r.
Qed.

Lemma installer_calls (E : env) (a : Installer.args) (fs0 : gmap string node) :
  let model_name := Installer.arg_model a in
  let use_cpu := parse_use_cpu (Installer.use_cpu_of a) in
  Forall (library_call_ok E "" model_name (Installer.token_of E) use_cpu)
         (calls (Installer.run E a fs0).2) /\
  (import_libs E = None ->
   forall d, device_choice E use_cpu = Ok d ->
     In (CallFromPretrained model_name (select_dtype d) (Installer.token_of E))
        (calls (Installer.run E a fs0).2)).
Proof.
  intros model_name use_cpu.
  pose proof (installer_run_cases E a fs0) as H. cbv zeta in H.
  fold model_name use_cpu in H.
  destruct (import_libs E) as [e|].
  - destruct H as [_ ->]. split; [by constructor | done].
  - destruct H as (ds & cs & _ & [Hcs Hload] & H).
    destruct (result_of _) as [[]|e]; destruct H as [_ ->]; simpl; by split.
Qed.

(** C1.  The preset depends on the identifier alone: 4 steps and guidance 1
    when it contains turbo in any case; 30 steps and guidance 7.5 when it
    contains xl or sdxl in any case and does not contain turbo; 25 steps and
    guidance 7.5 otherwise.  Every call of the pipeline made by a run of the
    generator carries the preset of the run's model identifier, whatever the
    environment, the prompt and the file system. *)
Theorem sampling_params_classification (model_name : string) :
  (contains_ci "turbo" model_name ->
     sampling_params model_name = (4%Z, 1 # 1)) /\
  (contains_ci "xl" model_name \/ contains_ci "sdxl" model_name ->
   ~ contains_ci "turbo" model_name ->
     sampling_params model_name = (30%Z, 15 # 2)) /\
  (~ contains_ci "turbo" model_name ->
   ~ contains_ci "xl" model_name ->
   ~ contains_ci "sdxl" model_name ->
     sampling_params model_name = (25%Z, 15 # 2)) /\
  (forall E a fs0 prompt steps guidance,
     Generator.model_of a = model_name ->
     In (CallPipe prompt steps guidance) (calls (Generator.run E a fs0).2) ->
     (steps, guidance) = sampling_params model_name).
Proof.
  unfold sampling_params at 1 2 3. split; [|split; [|split]].
  - intros H. apply str_in_lower in H. by rewrite H.
  - intros H Ht. apply str_in_lower_false in Ht. rewrite Ht.
    destruct H as [H|H]; apply str_in_lower in H; rewrite H; [done|].
    by rewrite orb_true_r.
  - intros Ht Hx Hs.
    apply str_in_lower_false in Ht, Hx, Hs. by rewrite Ht, Hx, Hs.
  - intros E a fs0 prompt steps guidance <- Hin.
    destruct (generator_calls E a fs0) as (cs & cs' & Hcalls & _ & Hcs & Hos).
    rewrite Hcalls in Hin. apply in_app_iff in Hin as [Hin|Hin].
    + rewrite Forall_forall in Hcs. apply list_elem_of_In, Hcs in Hin.
      by destruct Hin.
    + rewrite Forall_forall in Hos. apply list_elem_of_In, Hos in Hin.
      done.
Qed.

Lemma sampling_params_classification_witness :
  sampling_params "sd-turbo" = (4%Z, 1 # 1) /\
  sampling_params "stabilityai/sdxl-base" = (30%Z, 15 # 2).
Proof.
  split.
  - apply (sampling_params_classification "sd-turbo").
    by exists "sd-", "turbo", "".
  - apply (sampling_params_classification "stabilityai/sdxl-base").
    + left. by exists "stabilityai/sd", "xl", "-base".
    + intros H. apply str_in_lower in H. discriminate.
Defined.

(** C3.  With a flag that parses to true the device is the CPU and the
    accelerator is not even asked about; with a flag that parses to false
    the device is cuda when [torch.cuda.is_available()] says yes and the CPU
    when it says no.  In a run of the generator this is the device the
    pipeline is moved to, and in a run of the installer it is the device the
    precision of the load is taken from. *)
Theorem device_resolution (E : env) (flag : string) :
  (parse_use_cpu flag = true ->
     forall w, select_device E (parse_use_cpu flag) w = (Ok Cpu, w)) /\
  (parse_use_cpu flag = false ->
     forall w, select_device E (parse_use_cpu flag) w =
       (match cuda_is_available E with
        | Ok true => Ok Cuda
        | Ok false => Ok Cpu
        | Raise e => Raise e
        end, log_call CallCudaIsAvailable w)) /\
  (forall (a : Generator.args) fs0 d,
     Generator.use_cpu_of a = flag ->
     In (CallTo d) (calls (Generator.run E a fs0).2) ->
     d = if parse_use_cpu flag then Cpu
         else match cuda_is_available E with Ok true => Cuda | _ => Cpu end) /\
  (forall (a : Installer.args) fs0 m dt tok,
     Installer.use_cpu_of a = flag ->
     In (CallFromPretrained m dt tok) (calls (Installer.run E a fs0).2) ->
     dt = select_dtype
            (if parse_use_cpu flag then Cpu
             else match cuda_is_available E with Ok true => Cuda | _ => Cpu end)).
Proof.
  split; [|split; [|split]].
  - intros -> w. done.
  - intros -> w. rewrite select_device_run, device_choice_eq. done.
  - intros a fs0 d <- Hin.
    destruct (generator_calls E a fs0) as (cs & cs' & Hcalls & _ & Hcs & Hos).
    rewrite Hcalls in Hin. apply in_app_iff in Hin as [Hin|Hin].
    + rewrite Forall_forall in Hcs. apply list_elem_of_In, Hcs in Hin.
      simpl in Hin. rewrite device_choice_eq in Hin.
      destruct (parse_use_cpu _); [congruence |].
      destruct (cuda_is_available E) as [[|]|]; congruence.
    + rewrite Forall_forall in Hos. apply list_elem_of_In, Hos in Hin. done.
  - intros a fs0 m dt tok <- Hin.
    destruct (installer_calls E a fs0) as [Hcs _].
    rewrite Forall_forall in Hcs. apply list_elem_of_In, Hcs in Hin.
    destruct Hin as (_ & _ & d & Hd & ->). rewrite device_choice_eq in Hd.
    destruct (parse_use_cpu _); [congruence |].
    destruct (cuda_is_available E) as [[|]|]; congruence.
Qed.

Lemma device_resolution_witness :
  select_device Sample.gpu_env (parse_use_cpu "TRUE") (initial_world ∅)
    = (Ok Cpu, initial_world ∅) /\
  select_device Sample.gpu_env (parse_use_cpu "false") (initial_world ∅)
    = (Ok Cuda, log_call CallCudaIsAvailable (initial_world ∅)).
Proof.
  split.
  - apply (device_resolution Sample.gpu_env "TRUE"). reflexivity.
  - apply (device_resolution Sample.gpu_env "false"). reflexivity.
Defined.

(** C8.  cuda is paired with 16-bit floats and the CPU with 32-bit floats;
    in a run of either script every load of the pipeline carries the
    precision paired with the resolved device, and the load is made as soon
    as the imports and the device resolution succeed. *)
Theorem precision_follows_device (E : env) (fs0 : gmap string node) :
  (select_dtype Cuda = Float16 /\ select_dtype Cpu = Float32) /\
  (forall (a : Generator.args) m dt tok,
     In (CallFromPretrained m dt tok) (calls (Generator.run E a fs0).2) ->
     exists d,
       device_choice E (parse_use_cpu (Generator.use_cpu_of a)) = Ok d /\
       dt = select_dtype d) /\
  (forall (a : Installer.args) m dt tok,
     In (CallFromPretrained m dt tok) (calls (Installer.run E a fs0).2) ->
     exists d,
       device_choice E (parse_use_cpu (Installer.use_cpu_of a)) = Ok d /\
       dt = select_dtype d) /\
  (forall (a : Generator.args) d,
     import_libs E = None ->
     device_choice E (parse_use_cpu (Generator.use_cpu_of a)) = Ok d ->
     In (CallFromPretrained (Generator.model_of a) (select_dtype d) None)
        (calls (Generator.run E a fs0).2)) /\
  (forall (a : Installer.args) d,
     import_libs E = None ->
     device_choice E (parse_use_cpu (Installer.use_cpu_of a)) = Ok d ->
     In (CallFromPretrained (Installer.arg_model a) (select_dtype d)
           (Installer.token_of E))
        (calls (Installer.run E a fs0).2)).
Proof.
  split; [done |]. split; [|split; [|split]].
  - intros a m dt tok Hin.
    destruct (generator_calls E a fs0) as (cs & cs' & Hcalls & _ & Hcs & Hos).
    rewrite Hcalls in Hin. apply in_app_iff in Hin as [Hin|Hin].
    + rewrite Forall_forall in Hcs. apply list_elem_of_In, Hcs in Hin.
      by destruct Hin as (_ & _ & Hd).
    + rewrite Forall_forall in Hos. apply list_elem_of_In, Hos in Hin. done.
  - intros a m dt tok Hin.
    destruct (installer_calls E a fs0) as [Hcs _].
    rewrite Forall_forall in Hcs. apply list_elem_of_In, Hcs in Hin.
    by destruct Hin as (_ & _ & Hd).
  - intros a d Himp Hd.
    destruct (generator_calls E a fs0) as (cs & cs' & -> & -> & _).
    apply in_app_iff. left. by apply produce_image_loads.
  - intros a d Himp Hd.
    destruct (installer_calls E a fs0) as [_ Hload]. by apply Hload.
Qed.

Lemma precision_follows_device_witness :
  In (CallFromPretrained "runwayml/stable-diffusion-v1-5" Float16 None)
     (calls (Generator.run Sample.gpu_env Sample.relative_args ∅).2) /\
  In (CallFromPretrained "stabilityai/sdxl-turbo" Float32 None)
     (calls (Installer.run Sample.cpu_env Sample.install_args ∅).2).
Proof.
  destruct (precision_follows_device Sample.gpu_env ∅) as (_ & _ & _ & Hg & _).
  destruct (precision_follows_device Sample.cpu_env ∅) as (_ & _ & _ & _ & Hi).
  split.
  - apply (Hg Sample.relative_args Cuda); reflexivity.
  - apply (Hi Sample.install_args Cpu); reflexivity.
Defined.

Lemma parse_use_cpu_false (flag : string) :
  parse_use_cpu flag = false <-> Py.lower flag <> "true".
Proof.
  unfold parse_use_cpu. rewrite <- str_eq_spec.
  by destruct (Py.str_eq (Py.lower flag) "true").
Qed.

Lemma generator_run_flag (E : env) (p : string) (m : option string)
    (out flag flag' : string) (fs0 : gmap string node) :
  parse_use_cpu flag = parse_use_cpu flag' ->
  Generator.run E (Generator.Args p m out (Some flag)) fs0 =
    Generator.run E (Generator.Args p m out (Some flag')) fs0.
Proof.
  intros H. unfold Generator.run, Generator.main, Generator.use_cpu_of.
  cbn [Generator.arg_use_cpu default from_option id]. by rewrite H.
Qed.

Lemma installer_run_flag (E : env) (m flag flag' : string)
    (fs0 : gmap string node) :
  parse_use_cpu flag = parse_use_cpu flag' ->
  Installer.run E (Installer.Args m (Some flag)) fs0 =
    Installer.run E (Installer.Args m (Some flag')) fs0.
Proof.
  intros H. unfold Installer.run, Installer.main, Installer.main_body,
    Installer.use_cpu_of.
  cbn [Installer.arg_use_cpu default from_option id]. by rewrite H.
Qed.

Lemma download_run (E : env) (model_name : string) (use_cpu : bool)
    (w : world) :
  Installer.download E model_name use_cpu w =
    match device_choice E use_cpu with
    | Ok d =>
        (from_pretrained E model_name (select_dtype d) (Installer.token_of E),
         after w [] (Trace.installer_calls E model_name use_cpu d))
    | Raise e => (Raise e, after w [] [CallCudaIsAvailable])
    end.
Proof.
  unfold Installer.download, mbind, M_bind. rewrite select_device_run.
  pose proof (device_choice_eq E use_cpu) as Hd.
  destruct (device_choice E use_cpu) as [d|e].
  - unfold ext, Trace.installer_calls.
    destruct use_cpu, w; unfold after, log_call; simpl;
      by rewrite <- ?app_assoc, ?app_nil_r.
  - destruct use_cpu; [done |].
    destruct w; unfold after, log_call; simpl; by rewrite ?app_nil_r.
Qed.

(** The installer run in full, once the imports have succeeded. *)
Lemma installer_run_exact (E : env) (a : Installer.args)
    (fs0 : gmap string node) :
  let model_name := Installer.arg_model a in
  let use_cpu := parse_use_cpu (Installer.use_cpu_of a) in
  import_libs E = None ->
  Installer.run E a fs0 =
    match device_choice E use_cpu with
    | Raise e =>
        (Exited 1,
         World "" (Trace.installer_intro model_name ++
                   Installer.heartbeat_output E ++ error_report e) fs0
               [CallCudaIsAvailable] (Some true) true)
    | Ok d =>
        match from_pretrained E model_name (select_dtype d)
                (Installer.token_of E) with
        | Ok _ =>
            (Returned (),
             World ("INSTALL_OK" +:+ Py.nl)
               (Trace.installer_intro model_name ++
                Installer.heartbeat_output E ++
                [Line ("Model installed successfully: " +:+ model_name)])
               fs0 (Trace.installer_calls E model_name use_cpu d)
               (Some true) true)
        | Raise e =>
            (Exited 1,
             World "" (Trace.installer_intro model_name ++
                       Installer.heartbeat_output E ++ error_report e) fs0
               (Trace.installer_calls E model_name use_cpu d) (Some true) true)
        end
    end.
Proof.
  intros model_name use_cpu Himp.
  unfold Installer.run, Installer.main, handle_errors, Installer.main_body,
    do_imports.
  fold model_name use_cpu. rewrite Himp.
  unfold mbind, M_bind, mret, M_ret, print_err, Installer.new_event,
    Installer.start_heartbeat, Installer.alongside_heartbeat, try_finally,
    add_diag. simpl.
  rewrite download_run.
  destruct (device_choice E use_cpu) as [d|e].
  - destruct (from_pretrained E model_name (select_dtype d) _) as [[]|e].
    + simpl. by rewrite <- ?app_assoc.
    + destruct e; simpl; by rewrite <- ?app_assoc.
  - destruct e; simpl; by rewrite <- ?app_assoc.
Qed.

Lemma produce_image_queries (E : env) (prompt model_name : string)
    (w : world) :
  import_libs E = None ->
  In CallCudaIsAvailable
     (calls (Generator.produce_image E prompt model_name false w).2).
Proof.
  intros Himp. unfold Generator.produce_image, do_imports. rewrite Himp.
  unfold mbind, M_bind, mret, M_ret, print_err. rewrite select_device_run.
  destruct (device_choice E false) as [d|e]; simpl;
    [|rewrite !in_app_iff; simpl; tauto].
  destruct (sampling_params model_name) as [n g].
  unfold ext, first_image, raise, log_call, add_diag. simpl.
  destruct (from_pretrained E model_name (select_dtype d) None) as [[]|e1];
    simpl; [|rewrite !in_app_iff; simpl; tauto].
  destruct (pipe_to E d) as [[]|e2]; simpl;
    [|rewrite !in_app_iff; simpl; tauto].
  destruct d; simpl.
  - destruct (enable_attention_slicing E) as [[]|e3]; simpl;
      [|rewrite !in_app_iff; simpl; tauto].
    destruct (run_pipe E prompt n g) as [[|img imgs]|e4]; simpl;
      rewrite !in_app_iff; simpl; tauto.
  - destruct (run_pipe E prompt n g) as [[|img imgs]|e4]; simpl;
      rewrite !in_app_iff; simpl; tauto.
Qed.

(** What the flag does to a run of the generator. *)
Lemma generator_flag_effect (E : env) (a : Generator.args)
    (fs0 : gmap string node) :
  let use_cpu := parse_use_cpu (Generator.use_cpu_of a) in
  (use_cpu = true -> ~ In CallCudaIsAvailable (calls (Generator.run E a fs0).2)) /\
  (forall d, In (CallTo d) (calls (Generator.run E a fs0).2) ->
     device_choice E use_cpu = Ok d) /\
  (import_libs E = None -> forall d, device_choice E use_cpu = Ok d ->
     In (CallFromPretrained (Generator.model_of a) (select_dtype d) None)
        (calls (Generator.run E a fs0).2) /\
     (from_pretrained E (Generator.model_of a) (select_dtype d) None = Ok () ->
      In (CallTo d) (calls (Generator.run E a fs0).2))) /\
  (import_libs E = None -> use_cpu = false ->
     In CallCudaIsAvailable (calls (Generator.run E a fs0).2)).
Proof.
  intros use_cpu.
  destruct (generator_calls E a fs0) as (cs & cs' & Hcalls & Hcs & Hok & Hos).
  fold use_cpu in Hcs, Hok. rewrite Hcalls.
  rewrite Forall_forall in Hok. rewrite Forall_forall in Hos.
  split; [|split; [|split]].
  - intros Htrue Hin. apply in_app_iff in Hin as [Hin|Hin].
    + apply list_elem_of_In, Hok in Hin. simpl in Hin. congruence.
    + apply list_elem_of_In, Hos in Hin. done.
  - intros d Hin. apply in_app_iff in Hin as [Hin|Hin].
    + apply list_elem_of_In, Hok in Hin. done.
    + apply list_elem_of_In, Hos in Hin. done.
  - intros Himp d Hd. rewrite Hcs.
    destruct (produce_image_loads E (Generator.arg_prompt a)
                (Generator.model_of a) use_cpu d (initial_world fs0) Himp Hd)
      as [H1 H2].
    split; [apply in_app_iff; by left |].
    intros Hload. apply in_app_iff. left. by apply H2.
  - intros Himp Hfalse. rewrite Hcs, Hfalse. apply in_app_iff. left.
    by apply produce_image_queries.
Qed.

(** What the flag does to a run of the installer. *)
Lemma installer_flag_effect (E : env) (a : Installer.args)
    (fs0 : gmap string node) :
  let use_cpu := parse_use_cpu (Installer.use_cpu_of a) in
  (use_cpu = true -> ~ In CallCudaIsAvailable (calls (Installer.run E a fs0).2)) /\
  (import_libs E = None -> forall d, device_choice E use_cpu = Ok d ->
     In (CallFromPretrained (Installer.arg_model a) (select_dtype d)
           (Installer.token_of E))
        (calls (Installer.run E a fs0).2)) /\
  (import_libs E = None -> use_cpu = false ->
     In CallCudaIsAvailable (calls (Installer.run E a fs0).2)).
Proof.
  intros use_cpu.
  destruct (installer_calls E a fs0) as [Hok Hload].
  fold use_cpu in Hok, Hload. rewrite Forall_forall in Hok.
  split; [|split; [done |]].
  - intros Htrue Hin. apply list_elem_of_In, Hok in Hin. simpl in Hin.
    congruence.
  - intros Himp Hfalse. rewrite (installer_run_exact E a fs0 Himp).
    fold use_cpu. rewrite Hfalse.
    destruct (device_choice E false) as [d|e]; [|by left].
    destruct (from_pretrained E _ (select_dtype d) _) as [[]|e]; by left.
Qed.

Lemma generator_args_flag (a : Generator.args) (flag : string) :
  Generator.arg_use_cpu a = Some flag -> Generator.use_cpu_of a = flag.
Proof. unfold Generator.use_cpu_of. by intros ->. Qed.

Lemma installer_args_flag (a : Installer.args) (flag : string) :
  Installer.arg_use_cpu a = Some flag -> Installer.use_cpu_of a = flag.
Proof. unfold Installer.use_cpu_of. by intros ->. Qed.

(** C9.  The flag forces the CPU exactly when its lower-cased value is the
    string true.  With such a flag a run of either script never asks for an
    accelerator, the generator moves the pipeline to the CPU only, and the
    model is loaded with 32-bit floats.  Any other value, among them 1, yes,
    True followed by a space and the empty string, is accepted and has the
    effect of false: the run is the run with [--use-cpu false], it does ask
    for an accelerator, and loads with 16-bit floats when there is one. *)
Theorem use_cpu_flag (flag : string) :
  (parse_use_cpu flag = true <-> Py.lower flag = "true") /\
  (parse_use_cpu "1" = false /\ parse_use_cpu "yes" = false /\
   parse_use_cpu "True " = false /\ parse_use_cpu "" = false) /\
  (Py.lower flag = "true" ->
     (forall E (a : Generator.args) fs0,
        Generator.arg_use_cpu a = Some flag ->
        ~ In CallCudaIsAvailable (calls (Generator.run E a fs0).2) /\
        (forall d, In (CallTo d) (calls (Generator.run E a fs0).2) -> d = Cpu) /\
        (import_libs E = None ->
           In (CallFromPretrained (Generator.model_of a) Float32 None)
              (calls (Generator.run E a fs0).2) /\
           (from_pretrained E (Generator.model_of a) Float32 None = Ok () ->
            In (CallTo Cpu) (calls (Generator.run E a fs0).2)))) /\
     (forall E (a : Installer.args) fs0,
        Installer.arg_use_cpu a = Some flag ->
        ~ In CallCudaIsAvailable (calls (Installer.run E a fs0).2) /\
        (import_libs E = None ->
           In (CallFromPretrained (Installer.arg_model a) Float32
                 (Installer.token_of E))
              (calls (Installer.run E a fs0).2)))) /\
  (Py.lower flag <> "true" ->
     (forall E (a : Generator.args) fs0,
        Generator.arg_use_cpu a = Some flag ->
        Generator.run E a fs0 =
          Generator.run E
            (Generator.Args (Generator.arg_prompt a) (Generator.arg_model a)
               (Generator.arg_output_dir a) (Some "false")) fs0 /\
        (import_libs E = None ->
           In CallCudaIsAvailable (calls (Generator.run E a fs0).2) /\
           (cuda_is_available E = Ok true ->
              In (CallFromPretrained (Generator.model_of a) Float16 None)
                 (calls (Generator.run E a fs0).2)) /\
           (cuda_is_available E = Ok false ->
              In (CallFromPretrained (Generator.model_of a) Float32 None)
                 (calls (Generator.run E a fs0).2)))) /\
     (forall E (a : Installer.args) fs0,
        Installer.arg_use_cpu a = Some flag ->
        Installer.run E a fs0 =
          Installer.run E
            (Installer.Args (Installer.arg_model a) (Some "false")) fs0 /\
        (import_libs E = None ->
           In CallCudaIsAvailable (calls (Installer.run E a fs0).2) /\
           (cuda_is_available E = Ok true ->
              In (CallFromPretrained (Installer.arg_model a) Float16
                    (Installer.token_of E))
                 (calls (Installer.run E a fs0).2)) /\
           (cuda_is_available E = Ok false ->
              In (CallFromPretrained (Installer.arg_model a) Float32
                    (Installer.token_of E))
                 (calls (Installer.run E a fs0).2))))).
Proof.
  split; [apply str_eq_spec |]. split; [done |]. split.
  - intros H. apply str_eq_spec in H. fold (parse_use_cpu flag) in H. split.
    + intros E a fs0 Ha. apply generator_args_flag in Ha.
      destruct (generator_flag_effect E a fs0) as (Hno & Hto & Hload & _).
      rewrite Ha, H in Hno, Hto, Hload. rewrite device_choice_eq in Hto, Hload.
      split; [by apply Hno |]. split.
      * intros d Hd. apply Hto in Hd. congruence.
      * intros Himp. by apply (Hload Himp Cpu).
    + intros E a fs0 Ha. apply installer_args_flag in Ha.
      destruct (installer_flag_effect E a fs0) as (Hno & Hload & _).
      rewrite Ha, H in Hno, Hload. rewrite device_choice_eq in Hload.
      split; [by apply Hno |]. intros Himp. by apply (Hload Himp Cpu).
  - intros H. apply parse_use_cpu_false in H. split.
    + intros E a fs0 Ha. split.
      { destruct a as [p m out f]. simpl in Ha. subst f. simpl.
        by apply generator_run_flag. }
      apply generator_args_flag in Ha.
      destruct (generator_flag_effect E a fs0) as (_ & _ & Hload & Hq).
      rewrite Ha, H in Hload, Hq. rewrite device_choice_eq in Hload.
      intros Himp. split; [by apply Hq |]. split.
      * intros Hc. rewrite Hc in Hload. by apply (Hload Himp Cuda).
      * intros Hc. rewrite Hc in Hload. by apply (Hload Himp Cpu).
    + intros E a fs0 Ha. split.
      { destruct a as [m f]. simpl in Ha. subst f. simpl.
        by apply installer_run_flag. }
      apply installer_args_flag in Ha.
      destruct (installer_flag_effect E a fs0) as (_ & Hload & Hq).
      rewrite Ha, H in Hload, Hq. rewrite device_choice_eq in Hload.
      intros Himp. split; [by apply Hq |]. split.
      * intros Hc. rewrite Hc in Hload. by apply (Hload Himp Cuda).
      * intros Hc. rewrite Hc in Hload. by apply (Hload Himp Cpu).
Qed.

Lemma use_cpu_flag_witness :
  ~ In CallCudaIsAvailable
      (calls (Generator.run Sample.gpu_env
                (Generator.Args "a cat" None "out" (Some "tRuE")) ∅).2) /\
  In (CallFromPretrained "m" Float16 None)
     (calls (Installer.run Sample.gpu_env (Installer.Args "m" (Some "yes")) ∅).2).
Proof.
  destruct (use_cpu_flag "tRuE") as (_ & _ & Hyes & _).
  destruct (use_cpu_flag "yes") as (_ & _ & _ & Hno).
  destruct (Hyes eq_refl) as [Hg _].
  assert (Py.lower "yes" <> "true") as Hne by discriminate.
  destruct (Hno Hne) as [_ Hi].
  split.
  - destruct (Hg Sample.gpu_env
                (Generator.Args "a cat" None "out" (Some "tRuE")) ∅ eq_refl)
      as [H _].
    exact H.
  - destruct (Hi Sample.gpu_env (Installer.Args "m" (Some "yes")) ∅ eq_refl)
      as [_ H].
    destruct (H eq_refl) as (_ & H16 & _). exact (H16 eq_refl).
Defined.

(** * Further properties of the two scripts

    ** The classification and the flag *)

Lemma substring_of_trans (a b c : string) :
  substring_of a b -> substring_of b c -> substring_of a c.
Proof.
  intros (p1 & q1 & ->) (p2 & q2 & ->).
  exists (p2 +:+ p1), (q1 +:+ q2). by rewrite !append_assoc.
Qed.

Lemma lower_char_idemp (c : ascii) :
  Py.lower_char (Py.lower_char c) = Py.lower_char c.
Proof. by destruct c as [[] [] [] [] [] [] [] []]. Qed.

Lemma lower_idemp (s : string) : Py.lower (Py.lower s) = Py.lower s.
Proof.
  induction s as [|c s IH]; [done |]. simpl. by rewrite lower_char_idemp, IH.
Qed.

(** X1.  The test for sdxl on line 35 never decides anything: an identifier
    that contains sdxl contains xl, so among the identifiers without turbo
    the 30-step preset is chosen exactly for those containing xl. *)
Theorem sdxl_test_redundant (model_name : string) :
  (contains_ci "sdxl" model_name -> contains_ci "xl" model_name) /\
  (~ contains_ci "turbo" model_name ->
     (sampling_params model_name = (30%Z, 15 # 2)
      <-> contains_ci "xl" model_name)).
Proof.
  assert (contains_ci "sdxl" model_name -> contains_ci "xl" model_name) as Hsub.
  { rewrite <- !contains_ci_lower. apply substring_of_trans. by exists "sd", "". }
  split; [done |]. intros Ht. apply str_in_lower_false in Ht.
  unfold sampling_params. rewrite Ht.
  destruct (Py.str_in "xl" (Py.lower model_name)) eqn:Hx.
  - apply str_in_lower in Hx. done.
  - destruct (Py.str_in "sdxl" (Py.lower model_name)) eqn:Hs.
    + apply str_in_lower, Hsub, str_in_lower in Hs. congruence.
    + apply str_in_lower_false in Hx. simpl. split; [done | tauto].
Qed.

Lemma sdxl_test_redundant_witness :
  contains_ci "xl" "stabilityai/SDXL-base" /\
  sampling_params "stabilityai/SDXL-base" = (30%Z, 15 # 2).
Proof.
  destruct (sdxl_test_redundant "stabilityai/SDXL-base") as [H1 H2].
  assert (contains_ci "sdxl" "stabilityai/SDXL-base") as Hs
    by (by exists "stabilityai/", "SDXL", "-base").
  split; [exact (H1 Hs) |]. apply H2; [|exact (H1 Hs)].
  intros H. apply str_in_lower in H. discriminate.
Defined.

(** X2.  Neither the preset nor the parsed flag depends on the case of the
    letters: two strings with the same lower-case form get the same preset
    and the same flag value, and lower-casing a string first changes
    nothing. *)
Theorem case_does_not_matter (a b : string) :
  (Py.lower a = Py.lower b ->
     sampling_params a = sampling_params b /\
     parse_use_cpu a = parse_use_cpu b) /\
  sampling_params (Py.lower a) = sampling_params a /\
  parse_use_cpu (Py.lower a) = parse_use_cpu a.
Proof.
  unfold sampling_params, parse_use_cpu. split.
  - intros ->. done.
  - by rewrite lower_idemp.
Qed.

Lemma case_does_not_matter_witness :
  sampling_params "SD-Turbo" = sampling_params "sd-TURBO" /\
  parse_use_cpu "SD-Turbo" = parse_use_cpu "sd-TURBO".
Proof.
  apply (proj1 (case_does_not_matter "SD-Turbo" "sd-TURBO")). reflexivity.
Defined.

(** ** generate_image.py: the trace of a run *)

(** The image is there only if every step before it returned. *)
Lemma generation_ok_inv (E : env) (prompt model_name : string)
    (use_cpu : bool) (img : image) :
  Generator.generation E prompt model_name use_cpu = Ok img ->
  import_libs E = None /\
  exists d imgs,
    device_choice E use_cpu = Ok d /\
    from_pretrained E model_name (select_dtype d) None = Ok () /\
    pipe_to E d = Ok () /\
    (d = Cpu -> enable_attention_slicing E = Ok ()) /\
    run_pipe E prompt (sampling_params model_name).1
                      (sampling_params model_name).2 = Ok (img :: imgs).
Proof.
  unfold Generator.generation, result_of, Generator.produce_image, do_imports.
  destruct (import_libs E) as [e|]; [done |].
  unfold mbind, M_bind, mret, M_ret, print_err.
  rewrite select_device_run.
  destruct (device_choice E use_cpu) as [d|e] eqn:Hd; [|done].
  destruct (sampling_params model_name) as [n g].
  unfold ext, first_image, raise. simpl.
  destruct (from_pretrained E model_name (select_dtype d) None)
    as [[]|e1] eqn:Hload; [|done].
  destruct (pipe_to E d) as [[]|e2] eqn:Hto; [|done].
  destruct d; simpl.
  - destruct (enable_attention_slicing E) as [[]|e3] eqn:Hslice; [|done].
    simpl.
    destruct (run_pipe E prompt n g) as [[|i imgs]|e4] eqn:Hpipe;
      simpl; try done.
    intros [= ->]. split; [done |]. by exists Cpu, imgs.
  - destruct (run_pipe E prompt n g) as [[|i imgs]|e4] eqn:Hpipe;
      simpl; try done.
    intros [= ->]. split; [done |]. by exists Cuda, imgs.
Qed.

Lemma produce_image_success (E : env) (prompt model_name : string)
    (use_cpu : bool) (d : device) (img : image) (imgs : list image)
    (w : world) :
  import_libs E = None ->
  device_choice E use_cpu = Ok d ->
  from_pretrained E model_name (select_dtype d) None = Ok () ->
  pipe_to E d = Ok () ->
  (d = Cpu -> enable_attention_slicing E = Ok ()) ->
  run_pipe E prompt (sampling_params model_name).1
                    (sampling_params model_name).2 = Ok (img :: imgs) ->
  Generator.produce_image E prompt model_name use_cpu w =
    (Ok img, after w (Trace.generator_lines model_name d)
                     (Trace.generator_calls prompt model_name use_cpu d)).
Proof.
  intros Himp Hd Hload Hto Hslice Hpipe.
  unfold Generator.produce_image, do_imports. rewrite Himp.
  unfold Trace.generator_calls, Trace.generator_lines.
  destruct (sampling_params model_name) as [n g].
  cbn [fst snd] in Hpipe |- *.
  unfold mbind, M_bind, mret, M_ret, first_image, raise.
  rewrite print_err_after, select_device_after, Hd, print_err_after,
    ext_after, Hload, ext_after, Hto.
  destruct d.
  - rewrite ext_after, (Hslice eq_refl), print_err_after, ext_after, Hpipe.
    rewrite !after_after. f_equal.
  - rewrite print_err_after, ext_after, Hpipe.
    rewrite !after_after. f_equal.
Qed.

(** X3.  A generator run that returns has made exactly these calls, in this
    order: the query for an accelerator unless the CPU was forced, one load
    of the model under the identifier as given, one move to the device,
    attention slicing if and only if the device is the CPU, one call of the
    pipeline with the prompt and the preset, then [os.makedirs] and one
    [image.save]; and standard error holds exactly the three progress
    lines. *)
Theorem successful_run_trace (E : env) (a : Generator.args)
    (fs0 : gmap string node) (p : string) :
  let prompt := Generator.arg_prompt a in
  let model_name := Generator.model_of a in
  let use_cpu := parse_use_cpu (Generator.use_cpu_of a) in
  let out := Generator.arg_output_dir a in
  (Generator.run E a fs0).1 = Returned p ->
  exists d,
    device_choice E use_cpu = Ok d /\
    calls (Generator.run E a fs0).2 =
      Trace.generator_calls prompt model_name use_cpu d ++
      [CallMakedirs out; CallSave p] /\
    stderr (Generator.run E a fs0).2 = Trace.generator_lines model_name d.
Proof.
  intros prompt model_name use_cpu out.
  unfold Generator.run, Generator.main, Generator.generate_image.
  fold prompt model_name use_cpu out.
  unfold handle_errors, Generator.generate_image_body, mbind, M_bind.
  destruct (produce_image_framed E prompt model_name use_cpu (initial_world fs0))
    as (ds & cs & Hrun & _).
  fold (Generator.generation E prompt model_name use_cpu) in Hrun.
  destruct (Generator.generation E prompt model_name use_cpu) as [img|e] eqn:Hgen.
  2:{ rewrite Hrun. by destruct e. }
  apply generation_ok_inv in Hgen
    as (Himp & d & imgs & Hd & Hload & Hto & Hslice & Hpipe).
  rewrite (produce_image_success E prompt model_name use_cpu d img imgs); try done.
  destruct (Generator.store_and_report E out img _) as [[q|e] w'] eqn:Hstore;
    [|by destruct e].
  simpl. intros [= ->]. exists d. split; [done |].
  pose proof (store_and_report_ok_trace _ _ _ _ _ _ Hstore) as Hcalls.
  apply store_and_report_inv in Hstore as (Herr & _ & _ & _ & -> & _).
  rewrite Hcalls, Herr. done.
Qed.

Lemma successful_run_trace_witness :
  calls (Generator.run Sample.cpu_env Sample.absolute_args ∅).2 =
    [CallFromPretrained "runwayml/stable-diffusion-v1-5" Float32 None;
     CallTo Cpu; CallEnableAttentionSlicing;
     CallPipe "a cat" 25 (15 # 2);
     CallMakedirs "/tmp/images";
     CallSave "/tmp/images/generated-1700000000.png"].
Proof.
  destruct (successful_run_trace Sample.cpu_env Sample.absolute_args ∅
              "/tmp/images/generated-1700000000.png") as (d & Hd & Hc & _).
  - vm_compute. reflexivity.
  - injection Hd as <-. exact Hc.
Defined.

Lemma generator_import_failure (E : env) (e : exn) (a : Generator.args)
    (fs0 : gmap string node) :
  import_libs E = Some e ->
  Generator.run E a fs0 =
    (Exited 1, World "" (error_report e) fs0 [] None false).
Proof.
  intros Himp. unfold Generator.run, Generator.main, Generator.generate_image.
  rewrite (handle_errors_raise _ _ (initial_world fs0) e); [reflexivity |].
  unfold Generator.generate_image_body, Generator.produce_image, do_imports,
    mbind, M_bind. by rewrite Himp.
Qed.

Lemma installer_import_failure (E : env) (e : exn) (a : Installer.args)
    (fs0 : gmap string node) :
  import_libs E = Some e ->
  Installer.run E a fs0 =
    (Exited 1, World "" (error_report e) fs0 [] None false).
Proof.
  intros Himp. unfold Installer.run, Installer.main.
  rewrite (handle_errors_raise _ _ (initial_world fs0) e); [reflexivity |].
  unfold Installer.main_body, do_imports, mbind, M_bind. by rewrite Himp.
Qed.

(** X4.  When one of the two imports raises, the script stops there: in
    both scripts the run exits with status 1, standard error holds the error
    report and nothing else (no progress line is printed before the imports),
    no library is called, the file system is untouched and the heartbeat is
    neither created nor started. *)
Theorem import_failure_is_immediate (E : env) (e : exn)
    (fs0 : gmap string node) :
  import_libs E = Some e ->
  (forall a : Generator.args,
     Generator.run E a fs0 =
       (Exited 1, World "" (error_report e) fs0 [] None false)) /\
  (forall a : Installer.args,
     Installer.run E a fs0 =
       (Exited 1, World "" (error_report e) fs0 [] None false)).
Proof.
  intros Himp. split; intros a.
  - by apply generator_import_failure.
  - by apply installer_import_failure.
Qed.

Lemma import_failure_is_immediate_witness :
  Generator.run Sample.no_diffusers_env Sample.relative_args ∅ =
    (Exited 1,
     World "" [Line "ERROR: Missing required library: No module named 'diffusers'"]
           ∅ [] None false).
Proof.
  apply (import_failure_is_immediate Sample.no_diffusers_env
           (ImportError "No module named 'diffusers'") ∅).
  reflexivity.
Defined.

Lemma produce_image_no_image (E : env) (prompt model_name : string)
    (use_cpu : bool) (d : device) (w : world) :
  import_libs E = None ->
  device_choice E use_cpu = Ok d ->
  from_pretrained E model_name (select_dtype d) None = Ok () ->
  pipe_to E d = Ok () ->
  (d = Cpu -> enable_attention_slicing E = Ok ()) ->
  run_pipe E prompt (sampling_params model_name).1
                    (sampling_params model_name).2 = Ok [] ->
  Generator.produce_image E prompt model_name use_cpu w =
    (Raise (OtherException "list index out of range"),
     after w (Trace.generator_lines model_name d)
             (Trace.generator_calls prompt model_name use_cpu d)).
Proof.
  intros Himp Hd Hload Hto Hslice Hpipe.
  unfold Generator.produce_image, do_imports. rewrite Himp.
  unfold Trace.generator_calls, Trace.generator_lines.
  destruct (sampling_params model_name) as [n g].
  cbn [fst snd] in Hpipe |- *.
  unfold mbind, M_bind, mret, M_ret, first_image, raise.
  rewrite print_err_after, select_device_after, Hd, print_err_after,
    ext_after, Hload, ext_after, Hto.
  destruct d.
  - rewrite ext_after, (Hslice eq_refl), print_err_after, ext_after, Hpipe.
    rewrite !after_after. f_equal.
  - rewrite print_err_after, ext_after, Hpipe.
    rewrite !after_after. f_equal.
Qed.

(** X5.  A pipeline that returns without any image makes the run fail at
    [images[0]]: after the whole load and generation the run exits with
    status 1, reports the index error with its trace after the three
    progress lines, prints nothing on standard output and leaves the file
    system as it was. *)
Theorem no_image_is_a_failure (E : env) (a : Generator.args)
    (fs0 : gmap string node) (d : device) :
  let prompt := Generator.arg_prompt a in
  let model_name := Generator.model_of a in
  let use_cpu := parse_use_cpu (Generator.use_cpu_of a) in
  import_libs E = None ->
  device_choice E use_cpu = Ok d ->
  from_pretrained E model_name (select_dtype d) None = Ok () ->
  pipe_to E d = Ok () ->
  (d = Cpu -> enable_attention_slicing E = Ok ()) ->
  run_pipe E prompt (sampling_params model_name).1
                    (sampling_params model_name).2 = Ok [] ->
  Generator.run E a fs0 =
    (Exited 1,
     World ""
       (Trace.generator_lines model_name d ++
        [Line "ERROR: list index out of range";
         Traceback (OtherException "list index out of range")])
       fs0 (Trace.generator_calls prompt model_name use_cpu d) None false).
Proof.
  intros prompt model_name use_cpu Himp Hd Hload Hto Hslice Hpipe.
  unfold Generator.run, Generator.main, Generator.generate_image.
  fold prompt model_name use_cpu.
  erewrite handle_errors_raise.
  2:{ unfold Generator.generate_image_body, mbind, M_bind.
      by rewrite (produce_image_no_image E prompt model_name use_cpu d). }
  rewrite after_after, app_nil_r. reflexivity.
Qed.

Lemma no_image_is_a_failure_witness :
  (Generator.run Cases.no_image_env Sample.relative_args ∅).1 = Exited 1 /\
  fs (Generator.run Cases.no_image_env Sample.relative_args ∅).2 = ∅.
Proof.
  rewrite (no_image_is_a_failure Cases.no_image_env Sample.relative_args ∅ Cuda);
    try reflexivity; try discriminate.
  split; reflexivity.
Defined.

(** ** generate_image.py: file names and the clock *)

Lemma generator_returned (E : env) (a : Generator.args)
    (fs0 : gmap string node) (p : string) :
  let out := Generator.arg_output_dir a in
  (Generator.run E a fs0).1 = Returned p ->
  exists img f1,
    Generator.generation E (Generator.arg_prompt a) (Generator.model_of a)
      (parse_use_cpu (Generator.use_cpu_of a)) = Ok img /\
    p = Py.path_join out (Generator.file_name E) /\
    Fs.mkdir_chain out (Fs.dir_chain out) fs0 = (Ok (), f1) /\
    fs (Generator.run E a fs0).2 = <[p := File img]> f1.
Proof.
  intros out.
  destruct (generator_run_cases E a fs0) as (ds & cs & _ & _ & H).
  destruct (Generator.generation _ _ _ _) as [img|e].
  2:{ destruct H as [_ ->]. done. }
  destruct H as (res & w' & Hstore & _ & ->).
  apply store_and_report_inv in Hstore as (_ & _ & _ & _ & Hres).
  destruct res as [q|e]; [|done]. simpl. intros [= ->].
  destruct Hres as (-> & _ & _ & f1 & Hchain & _ & Hfs).
  exists img, f1. by rewrite Hfs.
Qed.

Lemma append_inj_l (a s t : string) : a +:+ s = a +:+ t -> s = t.
Proof.
  induction a as [|c a IH]; [done |]. rewrite !append_cons.
  intros [= H]. by apply IH.
Qed.

Lemma append_inj_r (s t z : string) : s +:+ z = t +:+ z -> s = t.
Proof.
  revert t. induction s as [|c s IH]; intros [|d t] H.
  - done.
  - apply (f_equal String.length) in H.
    rewrite append_cons, append_nil in H. simpl in H.
    rewrite length_append in H. lia.
  - apply (f_equal String.length) in H.
    rewrite append_cons, append_nil in H. simpl in H.
    rewrite length_append in H. lia.
  - rewrite !append_cons in H. injection H as -> H. f_equal. by apply IH.
Qed.

Lemma to_int_not_nil (n : Z) :
  Z.to_int n <> Decimal.Pos Decimal.Nil /\ Z.to_int n <> Decimal.Neg Decimal.Nil.
Proof.
  destruct n as [|p|p]; simpl; split; try done.
  - intros [= H]. by apply (DecimalPos.Unsigned.to_uint_nonnil p).
  - intros [= H]. by apply (DecimalPos.Unsigned.to_uint_nonnil p).
Qed.

(** [str] of an [int] can be read back: different integers print
    differently. *)
Lemma str_of_int_inj (m n : Z) : Py.str_of_int m = Py.str_of_int n -> m = n.
Proof.
  unfold Py.str_of_int. intros H.
  apply (f_equal NilZero.int_of_string) in H.
  destruct (to_int_not_nil m) as [Hm1 Hm2].
  destruct (to_int_not_nil n) as [Hn1 Hn2].
  rewrite !NilZero.isi in H by done.
  injection H as H. by apply DecimalZ.to_int_inj.
Qed.

Lemma file_name_inj (E1 E2 : env) :
  Generator.file_name E1 = Generator.file_name E2 ->
  Py.int_of_float (time_now E1) = Py.int_of_float (time_now E2).
Proof.
  unfold Generator.file_name. intros H.
  apply append_inj_l, append_inj_r in H. by apply str_of_int_inj.
Qed.

Lemma image_path_inj (E1 E2 : env) (out : string) :
  Py.path_join out (Generator.file_name E1) =
    Py.path_join out (Generator.file_name E2) ->
  Py.int_of_float (time_now E1) = Py.int_of_float (time_now E2).
Proof.
  rewrite !path_join_file_name. intros H.
  by apply append_inj_l, append_inj_l, file_name_inj in H.
Qed.

(** X6.  Two runs into the same directory whose clock readings fall into the
    same second use the same path, and the second run replaces the image of
    the first: after it the file holds the second image, and nothing else in
    the file system differs from what the first run left. *)
Theorem same_second_overwrites (E1 E2 : env) (a1 a2 : Generator.args)
    (fs0 : gmap string node) (p1 p2 : string) :
  Generator.arg_output_dir a1 = Generator.arg_output_dir a2 ->
  Py.int_of_float (time_now E1) = Py.int_of_float (time_now E2) ->
  (Generator.run E1 a1 fs0).1 = Returned p1 ->
  (Generator.run E2 a2 (fs (Generator.run E1 a1 fs0).2)).1 = Returned p2 ->
  p2 = p1 /\
  exists img2,
    Generator.generation E2 (Generator.arg_prompt a2) (Generator.model_of a2)
      (parse_use_cpu (Generator.use_cpu_of a2)) = Ok img2 /\
    fs (Generator.run E2 a2 (fs (Generator.run E1 a1 fs0).2)).2 !! p1
      = Some (File img2) /\
    fs (Generator.run E2 a2 (fs (Generator.run E1 a1 fs0).2)).2
      = <[p1 := File img2]> (fs (Generator.run E1 a1 fs0).2).
Proof.
  intros Hout Hclock H1 H2.
  apply generator_returned in H1 as (img1 & f1 & _ & Hp1 & Hchain1 & Hfs1).
  apply generator_returned in H2 as (img2 & f2 & Hgen2 & Hp2 & Hchain2 & Hfs2).
  assert (Generator.file_name E2 = Generator.file_name E1) as Hname
    by (unfold Generator.file_name; by rewrite Hclock).
  rewrite <- Hout in Hp2, Hchain2. rewrite Hname, <- Hp1 in Hp2. subst p2.
  split; [done |]. exists img2. split; [done |].
  assert (f2 = fs (Generator.run E1 a1 fs0).2) as ->.
  { rewrite mkdir_chain_noop in Hchain2; [by injection Hchain2 |].
    intros d Hd. rewrite Hfs1, lookup_insert_ne.
    - by apply (mkdir_chain_dirs _ _ _ _ Hchain1).
    - intros ->. rewrite Hp1 in Hd. by apply image_path_not_a_dir in Hd. }
  rewrite Hfs2. split; [apply lookup_insert_eq | done].
Qed.

Lemma same_second_overwrites_witness :
  fs (Generator.run Cases.same_second_env Sample.relative_args
        (fs (Generator.run Sample.gpu_env Sample.relative_args ∅).2)).2
    !! "out/generated-1700000000.png" = Some (File "other-bytes").
Proof.
  destruct (same_second_overwrites Sample.gpu_env Cases.same_second_env
              Sample.relative_args Sample.relative_args ∅
              "out/generated-1700000000.png" "out/generated-1700000000.png")
    as (_ & img2 & Hgen & Hfile & _).
  - reflexivity.
  - reflexivity.
  - vm_compute. reflexivity.
  - vm_compute. reflexivity.
  - injection Hgen as <-. exact Hfile.
Defined.

(** X7.  Runs into the same directory whose clock readings fall into
    different seconds use different paths, so the later run keeps the image
    of the earlier one: after both, each path holds its own image. *)
Theorem different_seconds_coexist (E1 E2 : env) (a1 a2 : Generator.args)
    (fs0 : gmap string node) (p1 p2 : string) :
  Generator.arg_output_dir a1 = Generator.arg_output_dir a2 ->
  Py.int_of_float (time_now E1) <> Py.int_of_float (time_now E2) ->
  (Generator.run E1 a1 fs0).1 = Returned p1 ->
  (Generator.run E2 a2 (fs (Generator.run E1 a1 fs0).2)).1 = Returned p2 ->
  p1 <> p2 /\
  exists img1 img2,
    Generator.generation E1 (Generator.arg_prompt a1) (Generator.model_of a1)
      (parse_use_cpu (Generator.use_cpu_of a1)) = Ok img1 /\
    Generator.generation E2 (Generator.arg_prompt a2) (Generator.model_of a2)
      (parse_use_cpu (Generator.use_cpu_of a2)) = Ok img2 /\
    fs (Generator.run E2 a2 (fs (Generator.run E1 a1 fs0).2)).2 !! p1
      = Some (File img1) /\
    fs (Generator.run E2 a2 (fs (Generator.run E1 a1 fs0).2)).2 !! p2
      = Some (File img2).
Proof.
  intros Hout Hclock H1 H2.
  apply generator_returned in H1 as (img1 & f1 & Hgen1 & Hp1 & Hchain1 & Hfs1).
  apply generator_returned in H2 as (img2 & f2 & Hgen2 & Hp2 & Hchain2 & Hfs2).
  rewrite <- Hout in Hp2.
  assert (p1 <> p2) as Hne.
  { rewrite Hp1, Hp2. intros H. by apply image_path_inj in H. }
  split; [done |]. exists img1, img2. split; [done | split; [done |]].
  rewrite Hfs2. split; [|apply lookup_insert_eq].
  rewrite lookup_insert_ne by done.
  replace f2 with (Fs.mkdir_chain (Generator.arg_output_dir a2)
                     (Fs.dir_chain (Generator.arg_output_dir a2))
                     (fs (Generator.run E1 a1 fs0).2)).2
    by (by rewrite Hchain2).
  apply mkdir_chain_keeps. rewrite Hfs1. apply lookup_insert_eq.
Qed.

Lemma different_seconds_coexist_witness :
  fs (Generator.run Cases.next_second_env Sample.relative_args
        (fs (Generator.run Sample.gpu_env Sample.relative_args ∅).2)).2
    !! "out/generated-1700000000.png" = Some (File "png-bytes").
Proof.
  destruct (different_seconds_coexist Sample.gpu_env Cases.next_second_env
              Sample.relative_args Sample.relative_args ∅
              "out/generated-1700000000.png" "out/generated-1700000001.png")
    as (_ & img1 & img2 & Hgen1 & _ & Hfile & _).
  - reflexivity.
  - discriminate.
  - vm_compute. reflexivity.
  - vm_compute. reflexivity.
  - injection Hgen1 as <-. exact Hfile.
Defined.

Lemma count_char_append (c : ascii) (a b : string) :
  Trace.count_char c (a +:+ b) = Trace.count_char c a + Trace.count_char c b.
Proof.
  induction a as [|x a IH]; [done |]. rewrite append_cons. simpl.
  rewrite IH. lia.
Qed.

Lemma count_slash_uint (d : Decimal.uint) :
  Trace.count_char "/" (NilEmpty.string_of_uint d) = 0.
Proof. induction d; simpl; done. Qed.

Lemma count_slash_str_of_int (n : Z) :
  Trace.count_char "/" (Py.str_of_int n) = 0.
Proof.
  unfold Py.str_of_int, NilZero.string_of_int, NilZero.string_of_uint.
  destruct (Z.to_int n) as [d|d]; destruct d; simpl;
    by rewrite ?count_slash_uint.
Qed.

(** X8.  Whatever the clock says, the file name has no path separator and
    no line break in it, so the image lands directly in the output
    directory: the path is the directory as given, a separator unless the
    directory is empty or already ends with one, and the file name. *)
Theorem image_path_shape (E : env) (out : string) :
  Trace.count_char "/" (Generator.file_name E) = 0 /\
  Py.count_nl (Generator.file_name E) = 0 /\
  (out = "" \/ Py.endswith_char out "/" = true ->
     Py.path_join out (Generator.file_name E) = out +:+ Generator.file_name E) /\
  (out <> "" -> Py.endswith_char out "/" = false ->
     Py.path_join out (Generator.file_name E)
       = out +:+ "/" +:+ Generator.file_name E).
Proof.
  split; [|split; [apply count_nl_file_name | split]].
  - unfold Generator.file_name.
    by rewrite !count_char_append, count_slash_str_of_int.
  - intros H. rewrite path_join_file_name.
    destruct H as [-> | ->]; [done |]. by rewrite orb_true_r.
  - intros Hne Hend. rewrite path_join_file_name, Hend.
    destruct (Py.str_eq out "") eqn:Heq; [|done].
    by apply str_eq_spec in Heq.
Qed.

Lemma image_path_shape_witness :
  Py.path_join "/tmp/images/" (Generator.file_name Sample.gpu_env)
    = "/tmp/images/" +:+ Generator.file_name Sample.gpu_env /\
  Py.path_join "out" (Generator.file_name Sample.gpu_env)
    = "out" +:+ "/" +:+ Generator.file_name Sample.gpu_env.
Proof.
  split.
  - apply (image_path_shape Sample.gpu_env "/tmp/images/"). right. reflexivity.
  - apply (image_path_shape Sample.gpu_env "out"); [discriminate | reflexivity].
Defined.

(** ** install_image_model.py: the token, the calls and the lines *)

(** X9.  The access token handed to the load is [HF_TOKEN] when that is set
    and not empty, otherwise [HUGGING_FACE_HUB_TOKEN] when that is set and
    not empty, otherwise none; an empty string is never handed over, and
    every load of an installer run carries this token. *)
Theorem token_selection (E : env) :
  (forall t, environ E "HF_TOKEN" = Some t -> t <> "" ->
     Installer.token_of E = Some t) /\
  (environ E "HF_TOKEN" = None \/ environ E "HF_TOKEN" = Some "" ->
     forall t, environ E "HUGGING_FACE_HUB_TOKEN" = Some t -> t <> "" ->
       Installer.token_of E = Some t) /\
  (environ E "HF_TOKEN" = None \/ environ E "HF_TOKEN" = Some "" ->
   environ E "HUGGING_FACE_HUB_TOKEN" = None \/
     environ E "HUGGING_FACE_HUB_TOKEN" = Some "" ->
     Installer.token_of E = None) /\
  Installer.token_of E <> Some "" /\
  (forall (a : Installer.args) fs0 m dt tok,
     In (CallFromPretrained m dt tok) (calls (Installer.run E a fs0).2) ->
     tok = Installer.token_of E).
Proof.
  assert (forall t, t <> "" -> Py.str_eq t "" = false) as Hne.
  { intros t Ht. destruct (Py.str_eq t "") eqn:H; [|done].
    by apply str_eq_spec in H. }
  unfold Installer.token_of, Installer.py_or.
  split; [|split; [|split; [|split]]].
  - intros t -> Ht. by rewrite !Hne.
  - intros [-> | ->] t -> Ht; simpl; by rewrite !Hne.
  - intros [-> | ->] [-> | ->]; done.
  - destruct (environ E "HF_TOKEN") as [t1|];
      destruct (environ E "HUGGING_FACE_HUB_TOKEN") as [t2|];
      repeat (match goal with
              | |- context [Py.str_eq ?x ""] =>
                  let H := fresh in destruct (Py.str_eq x "") eqn:H
              end; simpl); try done;
      intros [= ->]; discriminate.
  - intros a fs0 m dt tok Hin.
    destruct (installer_calls E a fs0) as [Hcs _].
    rewrite Forall_forall in Hcs. apply list_elem_of_In, Hcs in Hin.
    by destruct Hin as (_ & -> & _).
Qed.

Lemma token_selection_witness :
  Installer.token_of Cases.fallback_token_env = Some "hf_abc".
Proof.
  apply (token_selection Cases.fallback_token_env).
  - right. reflexivity.
  - reflexivity.
  - discriminate.
Defined.

(** X10.  The installer only loads: it never touches the output file
    system, never moves or runs the pipeline, and its calls are at most the
    query for an accelerator followed by one load of the model; once the
    imports and the device resolution succeed they are exactly that. *)
Theorem installer_only_loads (E : env) (a : Installer.args)
    (fs0 : gmap string node) :
  let model_name := Installer.arg_model a in
  let use_cpu := parse_use_cpu (Installer.use_cpu_of a) in
  fs (Installer.run E a fs0).2 = fs0 /\
  (calls (Installer.run E a fs0).2 = [] \/
   calls (Installer.run E a fs0).2 = [CallCudaIsAvailable] \/
   exists d, device_choice E use_cpu = Ok d /\
     calls (Installer.run E a fs0).2
       = Trace.installer_calls E model_name use_cpu d) /\
  (forall d, import_libs E = None -> device_choice E use_cpu = Ok d ->
     calls (Installer.run E a fs0).2
       = Trace.installer_calls E model_name use_cpu d).
Proof.
  intros model_name use_cpu.
  destruct (import_libs E) as [e|] eqn:Himp.
  - rewrite (installer_import_failure E e a fs0 Himp). simpl.
    split; [done | split; [by left | done]].
  - rewrite (installer_run_exact E a fs0 Himp). fold model_name use_cpu.
    destruct (device_choice E use_cpu) as [d|e].
    + destruct (from_pretrained E model_name (select_dtype d) _) as [[]|e];
        simpl; (split; [done | split; [right; right; by exists d |]]);
        by intros d' _ [= <-].
    + simpl. split; [done | split; [right; by left | done]].
Qed.

Lemma installer_only_loads_witness :
  calls (Installer.run Cases.fallback_token_env Sample.install_args ∅).2 =
    [CallCudaIsAvailable;
     CallFromPretrained "stabilityai/sdxl-turbo" Float32 (Some "hf_abc")].
Proof.
  destruct (installer_only_loads Cases.fallback_token_env Sample.install_args ∅)
    as (_ & _ & H).
  apply (H Cpu); reflexivity.
Defined.

(** X11.  The installer returns, and so prints [INSTALL_OK], exactly when
    the imports succeed, the device is resolved and the load of the model
    under that device's precision and the selected token returns. *)
Theorem installer_succeeds_iff (E : env) (a : Installer.args)
    (fs0 : gmap string node) :
  (Installer.run E a fs0).1 = Returned () <->
  import_libs E = None /\
  exists d,
    device_choice E (parse_use_cpu (Installer.use_cpu_of a)) = Ok d /\
    from_pretrained E (Installer.arg_model a) (select_dtype d)
      (Installer.token_of E) = Ok ().
Proof.
  destruct (import_libs E) as [e|] eqn:Himp.
  - rewrite (installer_import_failure E e a fs0 Himp). simpl.
    split; [done | by intros [? _]].
  - rewrite (installer_run_exact E a fs0 Himp).
    destruct (device_choice E _) as [d|e].
    + destruct (from_pretrained E _ (select_dtype d) _) as [[]|e] eqn:Hload;
        simpl.
      * split; [|done]. intros _. split; [done |]. by exists d.
      * split; [done |]. intros (_ & d' & [= <-] & H). congruence.
    + simpl. split; [done |]. by intros (_ & d' & H & _).
Qed.

Lemma installer_succeeds_iff_witness :
  (Installer.run Sample.cpu_env Sample.install_args ∅).1 = Returned ().
Proof.
  apply (installer_succeeds_iff Sample.cpu_env Sample.install_args ∅).
  split; [reflexivity |]. exists Cpu. split; reflexivity.
Defined.

Lemma ping_run_consecutive (flags : list bool) (s : Installer.ping_state) :
  exists k : nat,
    (Installer.ping_run flags s).2 = Trace.ping_lines (Installer.count s) k.
Proof.
  revert s. induction flags as [|b flags IH]; intros s; [by exists 0 |].
  cbn [Installer.ping_run].
  destruct (Installer.ping_step b s) as [s1 out1] eqn:Hstep.
  destruct (IH s1) as (k & Hout).
  destruct (Installer.ping_run flags s1) as [s2 out2]. simpl in Hout.
  unfold Installer.ping_step in Hstep.
  destruct s as [[] n]; simpl in Hstep; injection Hstep as <- <-;
    simpl in Hout |- *.
  1-3, 5: by exists k.
  exists (S k). simpl. by rewrite Hout.
Qed.

(** X12.  Standard error of an installer run whose imports succeed: first
    the three introductory lines, then the lines of the heartbeat, which are
    the announcements for 15, 30, ... seconds without gap, as many as the
    thread got to print, then the line saying the model is installed when
    the download returned, or the error report in its place when it
    raised. *)
Theorem installer_lines (E : env) (a : Installer.args)
    (fs0 : gmap string node) :
  let model_name := Installer.arg_model a in
  import_libs E = None ->
  (exists k, Installer.heartbeat_output E = Trace.ping_lines 0 k) /\
  ((Installer.run E a fs0).1 = Returned () ->
     stderr (Installer.run E a fs0).2 =
       Trace.installer_intro model_name ++ Installer.heartbeat_output E ++
       [Line ("Model installed successfully: " +:+ model_name)]) /\
  (forall e, Installer.raised E a fs0 = Some e ->
     stderr (Installer.run E a fs0).2 =
       Trace.installer_intro model_name ++ Installer.heartbeat_output E ++
       error_report e).
Proof.
  intros model_name Himp.
  split; [apply (ping_run_consecutive _ Installer.ping_start) |].
  pose proof (installer_run_cases E a fs0) as Hcases. cbv zeta in Hcases.
  rewrite Himp in Hcases. destruct Hcases as (ds & cs & _ & _ & Hcases).
  pose proof (download_run E model_name
                (parse_use_cpu (Installer.use_cpu_of a)) (initial_world ∅))
    as Hdl.
  apply (f_equal fst) in Hdl. fold (result_of (Installer.download E model_name
    (parse_use_cpu (Installer.use_cpu_of a)))) in Hdl.
  fold model_name in Hcases. rewrite Hdl in Hcases.
  rewrite (installer_run_exact E a fs0 Himp). fold model_name.
  destruct (device_choice E _) as [d|e0]; simpl in Hcases.
  - destruct (from_pretrained E model_name (select_dtype d) _) as [[]|e0];
      simpl in Hcases |- *; destruct Hcases as [-> _].
    + split; [done | done].
    + split; [done |]. by intros e [= <-].
  - destruct Hcases as [-> _]. simpl. split; [done |]. by intros e [= <-].
Qed.

Lemma installer_lines_witness :
  stderr (Installer.run Cases.slow_offline_env Sample.install_args ∅).2 =
    [Line "Downloading model: stabilityai/sdxl-turbo";
     Line "First install is 4–6GB+ and often takes 10–30 min.";
     Line "If it runs longer than 30 min with no change, cancel and retry (network may have stalled).";
     Line "  Still downloading... (15s elapsed). Normal for 10–30 min.";
     Line "  Still downloading... (30s elapsed). Normal for 10–30 min.";
     Line "ERROR: Connection error";
     Traceback (OtherException "Connection error")].
Proof.
  destruct (installer_lines Cases.slow_offline_env Sample.install_args ∅)
    as (_ & _ & H).
  - reflexivity.
  - apply (H (OtherException "Connection error")). reflexivity.
Defined.

(** ** The heartbeat thread *)

Lemma ping_run_finished (flags : list bool) (n : Z) :
  Installer.ping_run flags (Installer.Ping Installer.Finished n)
    = (Installer.Ping Installer.Finished n, []).
Proof. induction flags as [|b flags IH]; [done |]. simpl. by rewrite IH. Qed.

Lemma ping_round (n : Z) (rest : list bool) :
  Installer.ping_run (false :: false :: false :: false :: rest)
    (Installer.Ping Installer.AtWhile n)
  = ((Installer.ping_run rest (Installer.Ping Installer.AtWhile (n + 1))).1,
     Line (Installer.ping_line (n + 1))
       :: (Installer.ping_run rest (Installer.Ping Installer.AtWhile (n + 1))).2).
Proof.
  cbn [Installer.ping_run Installer.ping_step Installer.pc Installer.count].
  by destruct (Installer.ping_run rest _).
Qed.

(** X13.  While the event stays unset the thread prints one line per
    timeout: after [k] rounds of its loop it is back at the loop test having
    printed exactly [k] lines, announcing 15, 30, ..., 15k seconds. *)
Theorem heartbeat_one_line_per_timeout (k : nat) (n : Z) :
  Installer.ping_run (replicate (4 * k) false)
    (Installer.Ping Installer.AtWhile n)
  = (Installer.Ping Installer.AtWhile (n + Z.of_nat k), Trace.ping_lines n k).
Proof.
  revert n. induction k as [|k IH]; intros n.
  - simpl. by rewrite Z.add_0_r.
  - replace (4 * S k) with (S (S (S (S (4 * k))))) by lia.
    cbn [replicate]. rewrite ping_round, IH. cbn [fst snd Trace.ping_lines].
    replace (n + Z.of_nat (S k))%Z with (n + 1 + Z.of_nat k)%Z by lia. done.
Qed.

(** X14.  Whatever the moments at which the event is seen, the lines of the
    heartbeat are numbered without gap or repetition: a run of the thread
    from a state with counter [n] prints the lines for [n + 1], ..., [n + k]
    and ends with counter [n + k]. *)
Theorem heartbeat_lines_consecutive (flags : list bool)
    (s : Installer.ping_state) :
  exists k : nat,
    (Installer.ping_run flags s).2 = Trace.ping_lines (Installer.count s) k /\
    Installer.count (Installer.ping_run flags s).1
      = (Installer.count s + Z.of_nat k)%Z.
Proof.
  revert s. induction flags as [|b flags IH]; intros s.
  - exists 0. simpl. split; [done | lia].
  - cbn [Installer.ping_run].
    destruct (Installer.ping_step b s) as [s1 out1] eqn:Hstep.
    destruct (IH s1) as (k & Hout & Hcount).
    destruct (Installer.ping_run flags s1) as [s2 out2]. simpl in Hout, Hcount.
    unfold Installer.ping_step in Hstep.
    destruct s as [[] n]; simpl in Hstep; injection Hstep as <- <-;
      simpl in Hout, Hcount |- *.
    1-3, 5: exists k; by split.
    exists (S k). simpl. split; [by rewrite Hout | lia].
Qed.

(** X15.  If the event is already set when the thread first looks at it,
    the thread prints nothing and is finished, and a finished thread stays
    finished and silent whatever happens to the event afterwards. *)
Theorem heartbeat_silent_when_done_early (flags : list bool) :
  Installer.ping_run (true :: flags) Installer.ping_start
    = (Installer.Ping Installer.Finished 0, []) /\
  (forall n, Installer.ping_run flags (Installer.Ping Installer.Finished n)
             = (Installer.Ping Installer.Finished n, [])).
Proof.
  split; [|apply ping_run_finished].
  cbn [Installer.ping_run Installer.ping_step Installer.ping_start
       Installer.pc Installer.count].
  by rewrite ping_run_finished.
Qed.
